(** * WatchPoint: the sliding-window analysis trigger of [client/messenger_chat.py]

    A shallow embedding of [MessengerChat], the controller that appends chat
    messages to a log, decides when a window of messages is sent to the
    sentiment analyzer, runs that call on a background thread and turns the
    queued results into alerts for the parent monitor.

    What is modelled:
    - the controller fields [current_chat], [window_size],
      [last_analyzed_index], [messages_since_analysis], [message_queue] and
      [alert_queue];
    - Python list objects as a store of list values addressed by references,
      because [get_analysis_window] may return the very object that
      [handle_message] later appends to;
    - each [analyze_wrapper] thread as a small program counter whose steps
      interleave with the main thread.

    A callback of the main thread ([handle_message], [reset_chat], one tick
    of [check_analysis]) is one step of the model; a background thread moves
    one statement at a time between such steps.

    The Tk widgets ([ChatWindow], [ParentMonitorWindow]), logging and the
    shutdown path hold no state that the trigger policy reads; they are left
    out. *)

From stdpp Require Import gmap strings list fin_maps pretty.
From Stdlib Require Import ZArith Lia.

Local Open Scope Z_scope.

(** ** Data *)

(** [client.Chat] *)
Record Chat := mkChat { sender : string; message : string }.

(** [client.SentimentResponse], read by [check_analysis] through the three
    attributes below. *)
Record SentimentResponse := mkSentiment {
  sentiment : string;
  explanation : string;
  alert_needed : bool }.

(** [parent_monitor.MonitoringAlert], as built by [check_analysis]. *)
Record MonitoringAlert := mkAlert {
  timestamp : string;
  child_name : string;
  alert_sentiment : string;
  alert_explanation : string;
  alert_alert_needed : bool;
  message_range : string }.

(** A reference to a Python list object. *)
Abbreviation ref := nat.

(** The controller object together with the store of list objects.
    [Queue] objects are FIFO lists: [put] appends at the back and
    [get_nowait] takes from the front. *)
Record MessengerChat := mkApp {
  heap : gmap nat (list Chat);
  current_chat : ref;
  message_queue : list (string * option SentimentResponse);
  alert_queue : list MonitoringAlert;
  window_size : Z;
  last_analyzed_index : Z;
  messages_since_analysis : Z }.

Definition set_heap (f : gmap nat (list Chat) → gmap nat (list Chat))
    (st : MessengerChat) : MessengerChat :=
  mkApp (f (heap st)) (current_chat st) (message_queue st) (alert_queue st)
        (window_size st) (last_analyzed_index st) (messages_since_analysis st).

Definition set_current_chat (r : ref) (st : MessengerChat) : MessengerChat :=
  mkApp (heap st) r (message_queue st) (alert_queue st)
        (window_size st) (last_analyzed_index st) (messages_since_analysis st).

Definition set_message_queue (q : list (string * option SentimentResponse))
    (st : MessengerChat) : MessengerChat :=
  mkApp (heap st) (current_chat st) q (alert_queue st)
        (window_size st) (last_analyzed_index st) (messages_since_analysis st).

Definition set_alert_queue (q : list MonitoringAlert)
    (st : MessengerChat) : MessengerChat :=
  mkApp (heap st) (current_chat st) (message_queue st) q
        (window_size st) (last_analyzed_index st) (messages_since_analysis st).

Definition set_last_analyzed_index (i : Z) (st : MessengerChat) : MessengerChat :=
  mkApp (heap st) (current_chat st) (message_queue st) (alert_queue st)
        (window_size st) i (messages_since_analysis st).

Definition set_messages_since_analysis (m : Z) (st : MessengerChat) : MessengerChat :=
  mkApp (heap st) (current_chat st) (message_queue st) (alert_queue st)
        (window_size st) (last_analyzed_index st) m.

(** ** Python list operations *)

Module Py.

(** [l[i:]] for an arbitrary integer [i]: a negative index counts from the
    end, and both ends are clamped to the list. *)
Definition slice_from {A} (i : Z) (l : list A) : list A :=
  let n := Z.of_nat (length l) in
  let start := if i <? 0 then Z.max (i + n) 0 else Z.min i n in
  drop (Z.to_nat start) l.

(** [len(l)] *)
Definition len {A} (l : list A) : Z := Z.of_nat (length l).

End Py.

(** ** A state monad for the methods of the controller *)

Definition M (A : Type) : Type := MessengerChat → A * MessengerChat.

Definition ret {A} (a : A) : M A := λ st, (a, st).

Definition bind {A B} (m : M A) (k : A → M B) : M B :=
  λ st, let '(a, st') := m st in k a st'.

Definition gets {A} (f : MessengerChat → A) : M A := λ st, (f st, st).

Definition modify (f : MessengerChat → MessengerChat) : M unit := λ st, (tt, f st).

Declare Scope app_scope.
Delimit Scope app_scope with app.
Notation "x <- m ;; k" := (bind m (λ x, k))
  (at level 100, m at next level, right associativity) : app_scope.
Notation "m ;; k" := (bind m (λ _, k))
  (at level 100, right associativity) : app_scope.

Local Open Scope app_scope.

(** The value of the list object behind a reference.  Every reference the
    program holds points to an allocated object; a reference outside the store
    reads as the empty list. *)
Definition deref (h : gmap nat (list Chat)) (r : ref) : list Chat :=
  default [] (h !! r).

Definition load (r : ref) : M (list Chat) := gets (λ st, deref (heap st) r).

(** A new list object: the slice expression and the literal [[]] both build
    one. *)
Definition alloc (v : list Chat) : M ref :=
  λ st, let r := fresh (dom (heap st)) in (r, set_heap (insert r v) st).

(** [l.append(c)]: the object is changed in place, so every holder of the
    reference sees the new element. *)
Definition list_append (r : ref) (c : Chat) : M unit :=
  modify (λ st, set_heap (insert r (deref (heap st) r ++ [c])) st).

(** The log as the controller sees it: [self.current_chat]. *)
Definition log (st : MessengerChat) : list Chat :=
  deref (heap st) (current_chat st).

(** ** [MessengerChat] *)

(** The part of [__init__] that sets up the controller state. *)
Definition init : MessengerChat :=
  {| heap := {[ 0%nat := [] ]};
     current_chat := 0%nat;
     message_queue := [];
     alert_queue := [];
     window_size := 3;
     last_analyzed_index := -1;
     messages_since_analysis := 0 |}.

Definition get_analysis_window : M ref :=
  cur <- gets current_chat ;;
  chat <- load cur ;;
  ws <- gets window_size ;;
  if Py.len chat <=? ws then ret cur
  else alloc (Py.slice_from (- ws) chat).

Definition should_analyze : M bool :=
  cur <- gets current_chat ;;
  chat <- load cur ;;
  let total_messages := Py.len chat in
  ws <- gets window_size ;;
  lai <- gets last_analyzed_index ;;
  if (total_messages =? ws) && (lai =? -1) then ret true
  else
    since <- gets messages_since_analysis ;;
    ws' <- gets window_size ;;
    if since >=? ws' then ret true
    else ret false.

(** *** [AsyncTkThread.run] and the analyzer call

    The analyzer ([ChatMonitorClient.analyze_chats]) is an external
    collaborator.  What it does to one call is an input of the model. *)

(** How the future of [run_coroutine_threadsafe] ends: with a value (a
    response, or something falsy such as [None]), with an exception of the
    coroutine, or not within the 30 seconds of [future.result]. *)
Inductive FutureOutcome :=
  | FutureValue (v : option SentimentResponse)
  | FutureException
  | FutureTimeout.

Definition AsyncTkThread_run (running : bool) (fut : FutureOutcome)
    : option SentimentResponse :=
  if negb running then None
  else match fut with
       | FutureValue v => v
       | FutureException | FutureTimeout => None
       end.

(** One execution of lines 365-370 of [analyze_wrapper]: either an exception
    escapes to the [except] clause of the wrapper, or [async_handler.run]
    returns; [running] is the flag of the handler when it is called. *)
Inductive AnalyzeCall :=
  | CallRaises
  | CallRuns (running : bool) (fut : FutureOutcome).

(** The value bound to [results], if line 372 is reached. *)
Definition call_results (call : AnalyzeCall) : option SentimentResponse :=
  match call with
  | CallRaises => None
  | CallRuns running fut => AsyncTkThread_run running fut
  end.

(** *** [analyze_wrapper], one statement at a time

    The wrapper runs on a thread of its own, so the main thread can run
    between any two of its statements.  A thread is the closure variable
    [sender] and the statement it executes next.  A statement is one step:
    the model does not separate the moment line 374 measures the log from
    the moment it stores the index. *)
Inductive Stage :=
  | AtWindow                                (* analysis_window = self.get_analysis_window() *)
  | AtAnalyze (analysis_window : ref)       (* results = self.async_handler.run(...) *)
  | AtPut (results : SentimentResponse)     (* self.message_queue.put((sender, results)) *)
  | AtIndex                                 (* self.last_analyzed_index = len(self.current_chat) - 1 *)
  | AtCounter.                              (* self.messages_since_analysis = 0 *)

Record Thread := mkThread { t_sender : string; t_stage : Stage }.

(** One statement of the thread.  [call] is read by the analyzer call only.
    The result is the thread to continue with, or [None] when the wrapper has
    returned. *)
Definition analyze_wrapper (call : AnalyzeCall) (t : Thread) : M (option Thread) :=
  match t_stage t with
  | AtWindow =>
      analysis_window <- get_analysis_window ;;
      ret (Some (mkThread (t_sender t) (AtAnalyze analysis_window)))
  | AtAnalyze _ =>
      match call with
      | CallRaises => ret None
      | CallRuns running fut =>
          match AsyncTkThread_run running fut with
          | Some results => ret (Some (mkThread (t_sender t) (AtPut results)))
          | None => ret None
          end
      end
  | AtPut results =>
      q <- gets message_queue ;;
      modify (set_message_queue (q ++ [(t_sender t, Some results)])) ;;
      ret (Some (mkThread (t_sender t) AtIndex))
  | AtIndex =>
      cur <- gets current_chat ;;
      chat <- load cur ;;
      modify (set_last_analyzed_index (Py.len chat - 1)) ;;
      ret (Some (mkThread (t_sender t) AtCounter))
  | AtCounter =>
      modify (set_messages_since_analysis 0) ;;
      ret None
  end.

(** *** [handle_message]

    Returns the thread it starts, if any. *)
Definition handle_message (sender message : string) : M (option Thread) :=
  cur <- gets current_chat ;;
  list_append cur (mkChat sender message) ;;
  since <- gets messages_since_analysis ;;
  modify (set_messages_since_analysis (since + 1)) ;;
  trigger <- should_analyze ;;
  if trigger then ret (Some (mkThread sender AtWindow))
  else ret None.

(** *** [reset_chat] *)

(** [while not q.empty(): q.get_nowait()] *)
Fixpoint drain {A} (q : list A) : list A :=
  match q with
  | [] => []
  | _ :: q' => drain q'
  end.

Definition reset_chat : M unit :=
  fresh_chat <- alloc [] ;;
  modify (set_current_chat fresh_chat) ;;
  modify (set_last_analyzed_index (-1)) ;;
  modify (set_messages_since_analysis 0) ;;
  mq <- gets message_queue ;;
  modify (set_message_queue (drain mq)) ;;
  aq <- gets alert_queue ;;
  modify (set_alert_queue (drain aq)).

(** *** [check_analysis], one tick of the polling loop *)

(** The f-string of the [message_range] argument. *)
Definition format_range (start_msg end_msg ws : Z) : string :=
  "Messages " +:+ pretty start_msg +:+ " - " +:+ pretty end_msg
    +:+ " (Window of " +:+ pretty ws +:+ ")".

(** [now] is the reading of [datetime.now().strftime("%H:%M:%S")]. *)
Definition check_analysis (now : string) : M unit :=
  q <- gets message_queue ;;
  match q with
  | [] => ret tt
  | (sender, results) :: q' =>
      modify (set_message_queue q') ;;
      match results with
      | None => ret tt
      | Some results =>
          cur <- gets current_chat ;;
          chat <- load cur ;;
          ws <- gets window_size ;;
          let start_msg := if Py.len chat <=? ws then 1 else Py.len chat - ws + 1 in
          let end_msg := Py.len chat in
          let alert :=
            {| timestamp := now;
               child_name := sender;
               alert_sentiment := sentiment results;
               alert_explanation := explanation results;
               alert_alert_needed := alert_needed results;
               message_range := format_range start_msg end_msg ws |} in
          aq <- gets alert_queue ;;
          modify (set_alert_queue (aq ++ [alert]))
      end
  end.

(** ** The running application

    The controller and the [analyze_wrapper] threads in flight.  An event is
    one thing that happens next: a callback of the main thread runs to its end
    ([handle_message], [reset_chat], a tick of [check_analysis]), or one
    thread executes its next statement. *)
Record System := mkSys { app : MessengerChat; threads : list Thread }.

Inductive Event :=
  | Incoming (sender message : string)
  | Sched (i : nat) (call : AnalyzeCall)
  | Reset
  | Tick (now : string).

Definition step (e : Event) (s : System) : System :=
  match e with
  | Incoming sender message =>
      let '(spawned, st) := handle_message sender message (app s) in
      mkSys st (threads s ++ option_list spawned)
  | Sched i call =>
      match threads s !! i with
      | None => s
      | Some t =>
          let '(next, st) := analyze_wrapper call t (app s) in
          match next with
          | Some t' => mkSys st (<[i := t']> (threads s))
          | None => mkSys st (delete i (threads s))
          end
      end
  | Reset => mkSys (snd (reset_chat (app s))) (threads s)
  | Tick now => mkSys (snd (check_analysis now (app s))) (threads s)
  end.

(** Events are run oldest first. *)
Fixpoint run (evs : list Event) (s : System) : System :=
  match evs with
  | [] => s
  | e :: evs' => run evs' (step e s)
  end.

Definition start : System := mkSys init [].

(** What the main thread observes at each appended message: the length of the
    log and the answer of [should_analyze], in the state [handle_message]
    leaves behind. *)
Fixpoint observations (evs : list Event) (s : System) : list (Z * bool) :=
  match evs with
  | [] => []
  | e :: evs' =>
      let s' := step e s in
      match e with
      | Incoming _ _ =>
          (Py.len (log (app s')), fst (should_analyze (app s')))
            :: observations evs' s'
      | _ => observations evs' s'
      end
  end.

(** ** Vocabulary of the statements *)

(** The boolean [should_analyze] computes. *)
Definition trigger (st : MessengerChat) : bool :=
  (Py.len (log st) =? window_size st) && (last_analyzed_index st =? -1)
  || (messages_since_analysis st >=? window_size st).

(** The state [handle_message] leaves behind. *)
Definition appended (sender message : string) (st : MessengerChat) : MessengerChat :=
  set_messages_since_analysis (messages_since_analysis st + 1)
    (set_heap (insert (current_chat st) (log st ++ [mkChat sender message])) st).

Definition msg1 : Event := Incoming "Alice" "1".
Definition msg2 : Event := Incoming "Bob" "2".
Definition msg3 : Event := Incoming "Alice" "3".
Definition msg4 : Event := Incoming "Bob" "4".
Definition verdict : SentimentResponse := mkSentiment "negative" "harsh words" true.
Definition succeeds : AnalyzeCall := CallRuns true (FutureValue (Some verdict)).

(** Three messages start a dispatch; the monitor resets the chat while the
    analyzer is still working; then the result arrives and the next tick of
    the polling loop picks it up. *)
Definition reset_in_flight : list Event :=
  [msg1; msg2; msg3; Sched 0 succeeds; Reset;
   Sched 0 succeeds; Sched 0 succeeds; Sched 0 succeeds; Sched 0 succeeds;
   Tick "12:00:00"].

(** The first window has just been triggered. *)
Definition triggered : System := run [msg1; msg2; msg3] start.

(** The thread of the first window waits for the analyzer. *)
Definition analyzing : System := run [msg1; msg2; msg3; Sched 0 succeeds] start.

(** The result of the first window is on [message_queue]. *)
Definition result_queued : MessengerChat :=
  app (run [msg1; msg2; msg3; Sched 0 succeeds; Sched 0 succeeds; Sched 0 succeeds] start).

(** A log longer than the window. *)
Definition four_messages : MessengerChat := app (run [msg1; msg2; msg3; msg4] start).

(** The bound the counter keeps: it never exceeds the length of the log. *)
Definition counter_inv (st : MessengerChat) : Prop :=
  0 ≤ messages_since_analysis st ≤ Py.len (log st)
  ∧ is_Some (heap st !! current_chat st).

(** The bound of the data model: the counter never exceeds [window_size]. *)
Definition counter_bounded (st : MessengerChat) : Prop :=
  0 ≤ messages_since_analysis st ≤ window_size st.

(** The analyzer fails on the first window and a fourth message arrives. *)
Definition failed_first_dispatch : list Event :=
  [msg1; msg2; msg3; Sched 0 CallRaises; Sched 0 CallRaises; msg4].

(** What one event does to the counter. *)
Definition counter_after (e : Event) (s : System) : Z :=
  match e with
  | Incoming _ _ => messages_since_analysis (app s) + 1
  | Reset => 0
  | Tick _ => messages_since_analysis (app s)
  | Sched i _ =>
      match t_stage <$> threads s !! i with
      | Some AtCounter => 0
      | _ => messages_since_analysis (app s)
      end
  end.

(** Messages that arrive one after the other, with nothing in between. *)
Definition incoming (msgs : list (string * string)) : list Event :=
  map (λ m, Incoming m.1 m.2) msgs.

Definition chats (msgs : list (string * string)) : list Chat :=
  map (λ m, mkChat m.1 m.2) msgs.

(** The claimed cadence: the answer at a message is true exactly when the
    length of the log is a multiple of the window size. *)
Definition cadence (obs : list (Z * bool)) (ws : Z) : Prop :=
  ∀ n L b, obs !! n = Some (L, b) → b = (L mod ws =? 0).

(** No answer before the [n]-th observation was true. *)
Definition no_trigger_before (n : nat) (obs : list (Z * bool)) : bool :=
  forallb (λ o, negb o.2) (take n obs).

(** Every message is followed by the whole run of the dispatch it starts,
    if it starts one, and the analyzer answers with the given response. *)
Definition answered (r : SentimentResponse) : AnalyzeCall :=
  CallRuns true (FutureValue (Some r)).

Definition sync_trace (msgs : list (string * string * SentimentResponse)) : list Event :=
  flat_map (λ m, Incoming m.1.1 m.1.2 :: repeat (Sched 0 (answered m.2)) 5) msgs.

(** Nothing was dispatched yet. *)
Definition pristine (s : System) : Prop :=
  threads s = []
  ∧ last_analyzed_index (app s) = -1
  ∧ messages_since_analysis (app s) = Py.len (log (app s))
  ∧ messages_since_analysis (app s) < window_size (app s).

(** No dispatch is in flight and the counter is the length of the log modulo
    the window size. *)
Definition settled (s : System) : Prop :=
  threads s = []
  ∧ is_Some (heap (app s) !! current_chat (app s))
  ∧ 0 ≤ messages_since_analysis (app s) < window_size (app s)
  ∧ messages_since_analysis (app s) = Py.len (log (app s)) mod window_size (app s).

(** Run the next event of a trace. *)
Ltac run_one :=
  match goal with
  | |- context [run (?e :: ?evs) ?s] =>
      change (run (e :: evs) s) with (run evs (step e s))
  end.

(** ** The log and the queues over a whole run *)

(** The messages a run leaves in the log, given the ones it starts with:
    an incoming message is added at the end, a reset empties the log, and
    nothing else counts. *)
Fixpoint log_after (evs : list Event) (l : list Chat) : list Chat :=
  match evs with
  | [] => l
  | Incoming sender message :: evs' => log_after evs' (l ++ [mkChat sender message])
  | Reset :: evs' => log_after evs' []
  | _ :: evs' => log_after evs' l
  end.

(** The polling loop fires once for each time reading, with nothing in
    between. *)
Definition ticks (stamps : list string) (st : MessengerChat) : MessengerChat :=
  foldl (λ st now, snd (check_analysis now st)) st stamps.

(** A thread that is given the processor again and again until it returns;
    [calls] are the answers the analyzer would give at each turn. *)
Fixpoint thread_run (calls : list AnalyzeCall) (t : Thread) : M (option Thread) :=
  match calls with
  | [] => ret (Some t)
  | call :: calls' =>
      next <- analyze_wrapper call t ;;
      match next with
      | Some t' => thread_run calls' t'
      | None => ret None
      end
  end.

(** The statements a thread still has to execute when everything goes
    well. *)
Definition statements_left (stage : Stage) : nat :=
  match stage with
  | AtWindow => 5
  | AtAnalyze _ => 4
  | AtPut _ => 3
  | AtIndex => 2
  | AtCounter => 1
  end.

(** The first window failed; the counter stands at the window size. *)
Definition backlog : System :=
  run [msg1; msg2; msg3; Sched 0 CallRaises; Sched 0 CallRaises] start.

(** Four messages are in the log and the first thread has taken its window,
    which is a slice. *)
Definition sliced : System := run [msg1; msg2; msg3; msg4; Sched 0 succeeds] start.

(** The results of two dispatches wait on the queue. *)
Definition two_results : MessengerChat :=
  set_message_queue
    [("Alice", Some verdict); ("Bob", Some (mkSentiment "neutral" "small talk" false))]
    four_messages.

(** One window has been analyzed, with nothing left in flight. *)
Definition analyzed_once : System :=
  run (sync_trace [("Alice", "1", verdict); ("Bob", "2", verdict); ("Alice", "3", verdict)])
      start.

(** A message, the whole run of the dispatch it starts, and one tick. *)
Definition message_to_alert (sender message : string) (r : SentimentResponse)
    (now : string) : list Event :=
  Incoming sender message :: repeat (Sched 0 (answered r)) 5 ++ [Tick now].

(** The first window, analyzed to the end. *)
Definition first_window_done : list Event :=
  [msg1; msg2; msg3] ++ repeat (Sched 0 succeeds) 5.

(** Four messages are in the log; the threads that the third and the fourth
    started have not run yet. *)
Definition four_in_log : System := run [msg1; msg2; msg3; msg4] start.

(** No reset happens in a run. *)
Definition no_reset (evs : list Event) : bool :=
  forallb (λ e, match e with Reset => false | _ => true end) evs.

(** The first window is being analyzed and a fourth message arrives; then the
    result is processed. *)
Definition fourth_in_flight : System :=
  run (incoming [("Bob", "4")]) analyzing.

Definition fourth_in_flight_done : System :=
  run (repeat (Sched 0 succeeds) 4) fourth_in_flight.

(** The claimed exclusion: none of the messages that arrived in flight is in
    the list the thread holds as its window. *)
Definition in_flight_excluded (s : System) (w : nat) (msgs : list (string * string)) : Prop :=
  ∀ c, In c (chats msgs) → ¬ In c (deref (heap (app s)) w).

(** ** The chat windows

    [ChatWindow] as far as its callbacks change it: the text shown in
    [chat_display] as the list of inserted pieces with their tags, the label
    [message_counter] and the field [message_count].  The text of the entry
    widget, after [strip()], is an input of [send_message]. *)

Module MessengerStyle.
Definition WINDOW_WIDTH : Z := 200.
Definition WINDOW_HEIGHT : Z := 400.
End MessengerStyle.

Definition newline : string := String (Ascii.ascii_of_nat 10) EmptyString.

Record ChatWindow := mkWindow {
  name : string;
  other_name : string;
  chat_display : list (string * string);
  message_counter : string;
  message_count : Z }.

Definition set_chat_display (v : list (string * string)) (w : ChatWindow) : ChatWindow :=
  mkWindow (name w) (other_name w) v (message_counter w) (message_count w).

Definition set_message_count (n : Z) (w : ChatWindow) : ChatWindow :=
  mkWindow (name w) (other_name w) (chat_display w) (message_counter w) n.

Definition update_counter (w : ChatWindow) : ChatWindow :=
  mkWindow (name w) (other_name w) (chat_display w)
           ("Messages: " +:+ pretty (message_count w)) (message_count w).

(** The two pieces [display_message] inserts for one message. *)
Definition display_lines (now sender message : string) (is_self : bool)
    : list (string * string) :=
  let tag := if is_self then "sent" else "received" in
  [ ("   [" +:+ now +:+ "] " +:+ sender +:+ ":   " +:+ newline, tag);
    ("   " +:+ message +:+ "   " +:+ newline, tag) ].

(** [now] is the reading of [datetime.now().strftime("%H:%M")]. *)
Definition display_message (now sender message : string) (is_self : bool)
    (w : ChatWindow) : ChatWindow :=
  set_chat_display (chat_display w ++ display_lines now sender message is_self) w.

Definition clear_chat (w : ChatWindow) : ChatWindow :=
  update_counter (set_message_count 0 (set_chat_display [] w)).

(** [ChatWindow.__init__] with [setup_gui]. *)
Definition new_window (name other_name : string) : ChatWindow :=
  update_counter (mkWindow name other_name [] "Messages: 0" 0).

(** The application with its two chat windows. *)
Record Desktop := mkDesktop {
  system : System;
  alice_window : ChatWindow;
  bob_window : ChatWindow }.

Inductive Side := AliceSide | BobSide.

Definition window (p : Side) (d : Desktop) : ChatWindow :=
  match p with
  | AliceSide => alice_window d
  | BobSide => bob_window d
  end.

Definition set_window (p : Side) (w : ChatWindow) (d : Desktop) : Desktop :=
  match p with
  | AliceSide => mkDesktop (system d) w (bob_window d)
  | BobSide => mkDesktop (system d) (alice_window d) w
  end.

Module Ui.

(** [MessengerChat.handle_message] with the part that shows the message in
    the other window. *)
Definition handle_message (now sender message : string) (d : Desktop) : Desktop :=
  let s' := step (Incoming sender message) (system d) in
  if String.eqb sender "Alice" then
    let w := display_message now "Alice" message false (bob_window d) in
    let w := set_message_count (message_count w + 1) w in
    mkDesktop s' (alice_window d) (update_counter w)
  else
    let w := display_message now "Bob" message false (alice_window d) in
    let w := set_message_count (message_count w + 1) w in
    mkDesktop s' (update_counter w) (bob_window d).

(** [ChatWindow.send_message] of the window on side [p]; [message] is the
    stripped text of the entry, [now] and [now'] are the clock readings of
    the two [display_message] calls. *)
Definition send_message (p : Side) (now now' message : string) (d : Desktop)
    : bool * Desktop :=
  if String.eqb message "" then (false, d)
  else
    let w := window p d in
    let w := set_message_count (message_count w + 1) w in
    let w := update_counter w in
    let w := display_message now (name w) message true w in
    (true, handle_message now' (name w) message (set_window p w d)).

(** [MessengerChat.reset_chat] with the part that clears the windows. *)
Definition reset_chat (d : Desktop) : Desktop :=
  mkDesktop (step Reset (system d))
            (clear_chat (alice_window d)) (clear_chat (bob_window d)).

Inductive UiEvent :=
  | Typed (p : Side) (now now' message : string)
  | ResetClicked
  | Background (i : nat) (call : AnalyzeCall)
  | Poll (now : string).

Definition ui_step (e : UiEvent) (d : Desktop) : Desktop :=
  match e with
  | Typed p now now' message => snd (send_message p now now' message d)
  | ResetClicked => reset_chat d
  | Background i call =>
      mkDesktop (step (Sched i call) (system d)) (alice_window d) (bob_window d)
  | Poll now =>
      mkDesktop (step (Tick now) (system d)) (alice_window d) (bob_window d)
  end.

Fixpoint ui_run (evs : list UiEvent) (d : Desktop) : Desktop :=
  match evs with
  | [] => d
  | e :: evs' => ui_run evs' (ui_step e d)
  end.

(** The windows as [MessengerChat.__init__] creates them. *)
Definition desktop : Desktop :=
  mkDesktop start (new_window "Alice" "Bob") (new_window "Bob" "Alice").

(** What a window shows for a log: each message with the time it was
    displayed, tagged [sent] when the owner of the window wrote it. *)
Definition shown (owner : string) (entries : list (Chat * string))
    : list (string * string) :=
  flat_map (λ e, display_lines e.2 (sender e.1) (message e.1)
                               (String.eqb (sender e.1) owner)) entries.

(** The windows agree with the log. *)
Definition coherent (d : Desktop) : Prop :=
  counter_inv (app (system d))
  ∧ name (alice_window d) = "Alice"
  ∧ name (bob_window d) = "Bob"
  ∧ message_count (alice_window d) = Py.len (log (app (system d)))
  ∧ message_count (bob_window d) = Py.len (log (app (system d)))
  ∧ message_counter (alice_window d)
      = "Messages: " +:+ pretty (message_count (alice_window d))
  ∧ message_counter (bob_window d)
      = "Messages: " +:+ pretty (message_count (bob_window d))
  ∧ ∃ stamps_a stamps_b : list string,
      length stamps_a = length (log (app (system d)))
      ∧ length stamps_b = length (log (app (system d)))
      ∧ chat_display (alice_window d)
          = shown "Alice" (zip (log (app (system d))) stamps_a)
      ∧ chat_display (bob_window d)
          = shown "Bob" (zip (log (app (system d))) stamps_b).

End Ui.

(** ** Shutdown *)

Record Lifecycle := mkLife {
  running : bool;          (* MessengerChat.running *)
  handler_running : bool   (* AsyncTkThread.running *) }.

Inductive Outcome :=
  | Returned
  | Exited (code : Z).

(** [AsyncTkThread.stop] *)
Definition AsyncTkThread_stop (l : Lifecycle) : Lifecycle :=
  mkLife (running l) false.

(** [MessengerChat.stop_application]; what [window.destroy()] raises is
    swallowed and has no bearing on the rest. *)
Definition stop_application (l : Lifecycle) : Outcome * Lifecycle :=
  if negb (running l) then (Returned, l)
  else (Exited 0, AsyncTkThread_stop (mkLife false (handler_running l))).

(** The analyzer call of a thread, with the flag of the handler taken from
    the application. *)
Definition analyzer_call (l : Lifecycle) (fut : FutureOutcome) : AnalyzeCall :=
  CallRuns (handler_running l) fut.

(** ** [position_windows]

    [MonitorStyle] belongs to [parent_monitor]; its two dimensions are
    arguments. *)
Record Placement := mkPlacement { p_width : Z; p_height : Z; p_x : Z; p_y : Z }.

(** The argument of [geometry]. *)
Definition geometry (g : Placement) : string :=
  pretty (p_width g) +:+ "x" +:+ pretty (p_height g)
    +:+ "+" +:+ pretty (p_x g) +:+ "+" +:+ pretty (p_y g).

(** The placements of Alice's window, Bob's window and the monitor. *)
Definition position_windows (monitor_width monitor_height : Z)
    (screen_width screen_height : Z) : Placement * Placement * Placement :=
  let chat_width := MessengerStyle.WINDOW_WIDTH in
  let chat_height := MessengerStyle.WINDOW_HEIGHT in
  let alice_x := screen_width / 4 - chat_width / 2 in
  let alice_y := screen_height / 2 - chat_height / 2 in
  let bob_x := 3 * screen_width / 4 - chat_width / 2 in
  let bob_y := alice_y in
  let parent_x := (screen_width - monitor_width) / 2 in
  (mkPlacement chat_width chat_height alice_x alice_y,
   mkPlacement chat_width chat_height bob_x bob_y,
   mkPlacement monitor_width monitor_height parent_x 0).

(** * Properties *)

(** ** The methods as equations *)

Lemma should_analyze_eq (st : MessengerChat) : should_analyze st = (trigger st, st).
Proof.
  unfold should_analyze, trigger, log, bind, gets, load, ret; simpl.
  destruct (_ && _); simpl; [done|].
  by destruct (_ >=? _).
Qed.

Lemma handle_message_eq (sender message : string) (st : MessengerChat) :
  handle_message sender message st =
    (if trigger (appended sender message st)
     then Some (mkThread sender AtWindow) else None,
     appended sender message st).
Proof.
  unfold handle_message, bind, gets, list_append, modify; simpl.
  rewrite should_analyze_eq. fold (log st).
  change (set_messages_since_analysis _ _) with (appended sender message st).
  by destruct (trigger _).
Qed.

Lemma log_appended (sender message : string) (st : MessengerChat) :
  log (appended sender message st) = log st ++ [mkChat sender message].
Proof. unfold log, appended, deref; simpl. by rewrite lookup_insert_eq. Qed.

Lemma len_app {A} (l k : list A) : Py.len (l ++ k) = Py.len l + Py.len k.
Proof. unfold Py.len. rewrite length_app. lia. Qed.

Lemma len_nonneg {A} (l : list A) : 0 ≤ Py.len l.
Proof. unfold Py.len. lia. Qed.

Lemma drain_nil {A} (q : list A) : drain q = [].
Proof. induction q; auto. Qed.

(** The state [reset_chat] leaves behind. *)
Lemma reset_chat_eq (st : MessengerChat) :
  snd (reset_chat st) =
    {| heap := <[fresh (dom (heap st)) := []]> (heap st);
       current_chat := fresh (dom (heap st));
       message_queue := [];
       alert_queue := [];
       window_size := window_size st;
       last_analyzed_index := -1;
       messages_since_analysis := 0 |}.
Proof.
  unfold reset_chat, bind, alloc, modify, gets; simpl.
  by rewrite !drain_nil.
Qed.

(** A negative-index slice keeps the tail of the list. *)
Lemma slice_from_last {A} (k : Z) (l : list A) :
  0 < k → k ≤ Py.len l →
  Py.slice_from (- k) l = drop (length l - Z.to_nat k) l.
Proof.
  unfold Py.slice_from, Py.len. intros Hk Hl.
  destruct (Z.ltb_spec (- k) 0); [|lia].
  f_equal. lia.
Qed.

(** ** The trigger *)

(** C1: [should_analyze] answers true if and only if either the log was never
    analyzed ([last_analyzed_index = -1]) and its length is exactly
    [window_size], or [messages_since_analysis >= window_size]; in every
    other state it answers false. *)
Theorem should_analyze_iff (st : MessengerChat) :
  (fst (should_analyze st) = true ↔
     (last_analyzed_index st = -1 ∧ Py.len (log st) = window_size st)
     ∨ messages_since_analysis st >= window_size st)
  ∧ (fst (should_analyze st) = false ↔
     ¬ ((last_analyzed_index st = -1 ∧ Py.len (log st) = window_size st)
        ∨ messages_since_analysis st >= window_size st)).
Proof.
  rewrite should_analyze_eq; unfold trigger; simpl.
  destruct (Z.eqb_spec (Py.len (log st)) (window_size st)) as [Hlen|Hlen];
    destruct (Z.eqb_spec (last_analyzed_index st) (-1)) as [Hlai|Hlai];
    destruct (Z.geb_spec (messages_since_analysis st) (window_size st)) as [Hm|Hm];
    simpl; split; split; try done; try (intros; lia); auto.
  all: try (intros _; lia).
  all: try (intros H; exfalso; apply H; lia).
Qed.

(** C10: [should_analyze] only reads: the state after the call is the state
    before it, field by field, and asking twice gives the same answer. *)
Theorem should_analyze_read_only (st : MessengerChat) :
  let st' := snd (should_analyze st) in
  st' = st
  ∧ log st' = log st
  ∧ last_analyzed_index st' = last_analyzed_index st
  ∧ messages_since_analysis st' = messages_since_analysis st
  ∧ window_size st' = window_size st
  ∧ message_queue st' = message_queue st
  ∧ alert_queue st' = alert_queue st
  ∧ fst (should_analyze st') = fst (should_analyze st).
Proof. rewrite should_analyze_eq; simpl. by rewrite should_analyze_eq. Qed.

(** ** The analysis window *)

Lemma fresh_ref_unused (h : gmap nat (list Chat)) (r : nat) :
  is_Some (h !! r) → r ≠ fresh (dom h).
Proof.
  intros Hr ->. apply elem_of_dom in Hr.
  by apply (is_fresh (dom h)).
Qed.

(** What [get_analysis_window] returns. *)
Lemma window_content (st : MessengerChat) :
  0 < window_size st →
  let w := fst (get_analysis_window st) in
  let st' := snd (get_analysis_window st) in
  Py.len (deref (heap st') w) = Z.min (window_size st) (Py.len (log st))
  ∧ (∃ older, log st = older ++ deref (heap st') w).
Proof.
  intros Hws.
  unfold get_analysis_window, bind, gets, load, ret, alloc; simpl.
  fold (log st).
  destruct (Z.leb_spec (Py.len (log st)) (window_size st)) as [Hle|Hgt]; simpl.
  - fold (log st). split; [lia|]. by exists [].
  - unfold deref at 1 2. rewrite lookup_insert_eq; simpl.
    rewrite slice_from_last by lia.
    split.
    + unfold Py.len in *. rewrite length_drop. lia.
    + exists (take (length (log st) - Z.to_nat (window_size st)) (log st)).
      by rewrite take_drop.
Qed.

(** What [get_analysis_window] leaves alone. *)
Lemma window_frame (st : MessengerChat) :
  0 < window_size st →
  let st' := snd (get_analysis_window st) in
  log st' = log st
  ∧ current_chat st' = current_chat st
  ∧ last_analyzed_index st' = last_analyzed_index st
  ∧ messages_since_analysis st' = messages_since_analysis st
  ∧ window_size st' = window_size st
  ∧ message_queue st' = message_queue st
  ∧ alert_queue st' = alert_queue st
  ∧ (∀ r, is_Some (heap st !! r) → heap st' !! r = heap st !! r).
Proof.
  intros Hws.
  unfold get_analysis_window, bind, gets, load, ret, alloc; simpl.
  fold (log st).
  destruct (Z.leb_spec (Py.len (log st)) (window_size st)) as [Hle|Hgt]; simpl;
    [done|].
  assert (Hcur : current_chat st ≠ fresh (dom (heap st))).
  { apply fresh_ref_unused. unfold log, deref in Hgt.
    destruct (heap st !! current_chat st); [done|].
    unfold Py.len in Hgt; simpl in Hgt; lia. }
  split.
  { unfold log, deref; simpl. by rewrite lookup_insert_ne. }
  repeat (split; [done|]).
  intros r' Hr'. apply lookup_insert_ne.
  intros <-. by apply (fresh_ref_unused _ _ Hr').
Qed.

(** C3: for a positive [window_size], [get_analysis_window] returns exactly
    [min(window_size, len(log))] entries, they are the last entries of the
    log in log order, and the call changes neither a field of the controller
    nor any list object that existed before the call. *)
Theorem get_analysis_window_spec (st : MessengerChat) :
  0 < window_size st →
  let w := fst (get_analysis_window st) in
  let st' := snd (get_analysis_window st) in
  let window := deref (heap st') w in
  Py.len window = Z.min (window_size st) (Py.len (log st))
  ∧ (∃ older, log st = older ++ window)
  ∧ log st' = log st
  ∧ current_chat st' = current_chat st
  ∧ last_analyzed_index st' = last_analyzed_index st
  ∧ messages_since_analysis st' = messages_since_analysis st
  ∧ window_size st' = window_size st
  ∧ message_queue st' = message_queue st
  ∧ alert_queue st' = alert_queue st
  ∧ (∀ r, is_Some (heap st !! r) → heap st' !! r = heap st !! r).
Proof.
  intros Hws w st' window.
  destruct (window_content st Hws) as [Hlen Hsuffix].
  pose proof (window_frame st Hws) as Hframe.
  split; [exact Hlen|]. split; [exact Hsuffix|]. exact Hframe.
Qed.

(** ** The alert router *)

(** C7: when [check_analysis] pops [(sender, results)], the alert it puts on
    [alert_queue] carries the range from [max(1, L - window_size + 1)] to
    [L], where [L] is the length of the log at the time of the pop. *)
Theorem check_analysis_message_range
    (st : MessengerChat) (now sender : string) (results : SentimentResponse)
    (rest : list (string * option SentimentResponse)) :
  message_queue st = (sender, Some results) :: rest →
  let st' := snd (check_analysis now st) in
  let L := Py.len (log st) in
  ∃ alert,
    alert_queue st' = alert_queue st ++ [alert]
    ∧ message_range alert =
        format_range (Z.max 1 (L - window_size st + 1)) L (window_size st)
    ∧ child_name alert = sender
    ∧ message_queue st' = rest.
Proof.
  intros Hq.
  unfold check_analysis, bind, gets, load, modify; simpl.
  rewrite Hq; simpl. fold (log st).
  eexists; split; [reflexivity|]; simpl.
  split; [|done].
  f_equal.
  destruct (Z.leb_spec (Py.len (log st)) (window_size st)); lia.
Qed.

(** ** A dispatch that fails *)

(** C5: when the analyzer call of a thread fails (an exception escapes, the
    future raises or times out, or the value is [None]), the thread ends and
    the controller is left exactly as it was: [last_analyzed_index] and
    [messages_since_analysis] keep their values and neither queue receives
    anything. *)
Theorem failed_dispatch_changes_nothing
    (s : System) (i : nat) (t : Thread) (w : nat) (call : AnalyzeCall) :
  threads s !! i = Some t →
  t_stage t = AtAnalyze w →
  call_results call = None →
  let s' := step (Sched i call) s in
  app s' = app s
  ∧ last_analyzed_index (app s') = last_analyzed_index (app s)
  ∧ messages_since_analysis (app s') = messages_since_analysis (app s)
  ∧ message_queue (app s') = message_queue (app s)
  ∧ alert_queue (app s') = alert_queue (app s)
  ∧ threads s' = delete i (threads s).
Proof.
  intros Ht Hstage Hcall. simpl. rewrite Ht.
  unfold analyze_wrapper. rewrite Hstage.
  destruct call as [|running fut]; simpl in *.
  - done.
  - rewrite Hcall. done.
Qed.

(** The ways a call can fail. *)
Lemma call_results_failures (running : bool) :
  call_results CallRaises = None
  ∧ call_results (CallRuns running FutureException) = None
  ∧ call_results (CallRuns running FutureTimeout) = None
  ∧ call_results (CallRuns running (FutureValue None)) = None
  ∧ (∀ fut, call_results (CallRuns false fut) = None).
Proof. by destruct running. Qed.

(** ** Reset *)

(** C6, as the code has it: [reset_chat] leaves an empty log,
    [last_analyzed_index = -1], [messages_since_analysis = 0] and two empty
    queues, in one callback of the main thread; [window_size] stays and the
    threads in flight are not touched. *)
Theorem reset_chat_spec (s : System) :
  let s' := step Reset s in
  log (app s') = []
  ∧ last_analyzed_index (app s') = -1
  ∧ messages_since_analysis (app s') = 0
  ∧ message_queue (app s') = []
  ∧ alert_queue (app s') = []
  ∧ window_size (app s') = window_size (app s)
  ∧ threads s' = threads s.
Proof.
  cbn [step app threads]. rewrite reset_chat_eq. unfold log, deref; simpl.
  by rewrite lookup_insert_eq.
Qed.

(** C6, as claimed, fails: a dispatch that started before the reset still
    delivers.  No message is appended after the reset, and yet the monitor
    gets an alert about the conversation that was wiped. *)
Lemma reset_does_not_stop_dispatch :
  let s := run reset_in_flight start in
  log (app s) = []
  ∧ threads s = []
  ∧ alert_queue (app s) =
      [ {| timestamp := "12:00:00";
           child_name := "Alice";
           alert_sentiment := "negative";
           alert_explanation := "harsh words";
           alert_alert_needed := true;
           message_range := "Messages 1 - 0 (Window of 3)" |} ]
  ∧ alert_queue (app s) ≠ [].
Proof. vm_compute. repeat split; congruence. Qed.

(** ** The window is not always a copy *)

(** C8 fails at the first trigger: with three messages in the log the window
    is the log object itself, and the fourth message shows up in it. *)
Lemma window_sees_later_append :
  let st := app (run [msg1; msg2; msg3] start) in
  let w := fst (get_analysis_window st) in
  let st1 := snd (get_analysis_window st) in
  let st2 := snd (handle_message "Bob" "4" st1) in
  w = current_chat st
  ∧ deref (heap st1) w =
      [mkChat "Alice" "1"; mkChat "Bob" "2"; mkChat "Alice" "3"]
  ∧ deref (heap st2) w =
      [mkChat "Alice" "1"; mkChat "Bob" "2"; mkChat "Alice" "3"; mkChat "Bob" "4"].
Proof. vm_compute. done. Qed.

Lemma log_nonempty_allocated (st : MessengerChat) :
  0 < Py.len (log st) → is_Some (heap st !! current_chat st).
Proof.
  unfold log, deref. destruct (heap st !! current_chat st); [done|].
  unfold Py.len; simpl; lia.
Qed.

(** The short-log branch returns the reference held by the controller. *)
Lemma short_window_is_alias (st : MessengerChat) :
  Py.len (log st) ≤ window_size st →
  get_analysis_window st = (current_chat st, st).
Proof.
  intros Hle. unfold get_analysis_window, bind, gets, load, ret; simpl.
  fold (log st). by destruct (Z.leb_spec (Py.len (log st)) (window_size st)); [|lia].
Qed.

(** The slice branch does build a new object: an append to the log leaves
    it alone. *)
Lemma sliced_window_is_snapshot (st : MessengerChat) (sender message : string) :
  is_Some (heap st !! current_chat st) →
  window_size st < Py.len (log st) →
  let w := fst (get_analysis_window st) in
  let st1 := snd (get_analysis_window st) in
  let st2 := snd (handle_message sender message st1) in
  w ≠ current_chat st
  ∧ deref (heap st2) w = deref (heap st1) w.
Proof.
  intros Hcur Hgt.
  unfold get_analysis_window, bind, gets, load, ret, alloc; simpl.
  fold (log st).
  destruct (Z.leb_spec (Py.len (log st)) (window_size st)); [lia|]; simpl.
  pose proof (fresh_ref_unused _ _ Hcur) as Hne.
  split; [done|].
  rewrite handle_message_eq; simpl.
  unfold deref. by rewrite (lookup_insert_ne _ (current_chat st)).
Qed.

(** ** The counter of new messages *)

Lemma get_analysis_window_frame (st : MessengerChat) :
  is_Some (heap st !! current_chat st) →
  let st' := snd (get_analysis_window st) in
  log st' = log st
  ∧ is_Some (heap st' !! current_chat st')
  ∧ current_chat st' = current_chat st
  ∧ messages_since_analysis st' = messages_since_analysis st
  ∧ last_analyzed_index st' = last_analyzed_index st
  ∧ window_size st' = window_size st
  ∧ message_queue st' = message_queue st
  ∧ alert_queue st' = alert_queue st.
Proof.
  intros Hcur.
  unfold get_analysis_window, bind, gets, load, ret, alloc; simpl.
  destruct (_ <=? _); simpl; [done|].
  pose proof (fresh_ref_unused _ _ Hcur) as Hne.
  unfold log, deref; simpl.
  rewrite lookup_insert_ne by done. done.
Qed.

Lemma analyze_wrapper_frame (call : AnalyzeCall) (t : Thread) (st : MessengerChat) :
  is_Some (heap st !! current_chat st) →
  let st' := snd (analyze_wrapper call t st) in
  log st' = log st
  ∧ is_Some (heap st' !! current_chat st')
  ∧ window_size st' = window_size st
  ∧ messages_since_analysis st' =
      match t_stage t with
      | AtCounter => 0
      | _ => messages_since_analysis st
      end.
Proof.
  intros Hcur. unfold analyze_wrapper.
  destruct (t_stage t) as [|w|results| |].
  - unfold bind, ret.
    pose proof (get_analysis_window_frame st Hcur) as Hframe.
    destruct (get_analysis_window st) as [w st1]; simpl in *.
    by destruct Hframe as (? & ? & _ & ? & _ & ? & _).
  - destruct call as [|running fut]; [done|].
    by destruct (AsyncTkThread_run running fut).
  - done.
  - done.
  - done.
Qed.

Lemma check_analysis_frame (now : string) (st : MessengerChat) :
  let st' := snd (check_analysis now st) in
  heap st' = heap st
  ∧ current_chat st' = current_chat st
  ∧ window_size st' = window_size st
  ∧ last_analyzed_index st' = last_analyzed_index st
  ∧ messages_since_analysis st' = messages_since_analysis st.
Proof.
  unfold check_analysis, bind, gets, load, modify; simpl.
  destruct (message_queue st) as [|[sender [results|]] rest]; done.
Qed.

Lemma step_counter (e : Event) (s : System) :
  counter_inv (app s) →
  counter_inv (app (step e s))
  ∧ messages_since_analysis (app (step e s)) = counter_after e s.
Proof.
  intros [Hm Hcur]. destruct e as [sender message|i call| |now].
  - cbn [step counter_after]. rewrite handle_message_eq; simpl.
    split; [|done]. split.
    + rewrite log_appended, len_app. unfold Py.len at 2; simpl. lia.
    + simpl. by rewrite lookup_insert_eq.
  - cbn [step counter_after].
    destruct (threads s !! i) as [t|] eqn:Ht; simpl; [|done].
    pose proof (analyze_wrapper_frame call t (app s) Hcur) as Hframe.
    destruct (analyze_wrapper call t (app s)) as [next st'].
    simpl in Hframe. destruct Hframe as (Hlog & Hcur' & _ & Hm').
    assert (app (match next with
                 | Some t' => mkSys st' (<[i:=t']> (threads s))
                 | None => mkSys st' (delete i (threads s))
                 end) = st') as -> by (by destruct next).
    split; [|by rewrite Hm'; destruct (t_stage t)].
    split; [|done]. rewrite Hlog, Hm'.
    pose proof (len_nonneg (log (app s))).
    destruct (t_stage t); lia.
  - cbn [step app counter_after]. rewrite reset_chat_eq.
    split; [|done]. unfold counter_inv, log, deref; simpl.
    by rewrite lookup_insert_eq.
  - cbn [step counter_after app].
    pose proof (check_analysis_frame now (app s)) as (Hheap & Hc & _ & _ & Hm').
    split; [|done]. unfold counter_inv, log. by rewrite Hheap, Hc, Hm'.
Qed.

Lemma run_app (evs evs' : list Event) (s : System) :
  run (evs ++ evs') s = run evs' (run evs s).
Proof. revert s. induction evs as [|e evs IH]; intros s; simpl; auto. Qed.

Lemma run_counter_inv (evs : list Event) (s : System) :
  counter_inv (app s) → counter_inv (app (run evs s)).
Proof.
  revert s. induction evs as [|e evs IH]; intros s Hs; simpl; [done|].
  apply IH. by apply step_counter.
Qed.

Lemma counter_inv_start : counter_inv (app start).
Proof. split; [done|]. by eexists. Qed.

(** C4, as the code has it: in every state the application can reach,
    [0 <= messages_since_analysis <= len(current_chat)], and every event
    keeps it so.  The counter grows by one with each message, goes back to 0
    in [reset_chat] and in the last statement of a dispatch that got a
    result, and is left alone by everything else. *)
Theorem counter_invariant (evs : list Event) (e : Event) :
  let s := run evs start in
  let s' := step e s in
  0 ≤ messages_since_analysis (app start) ≤ Py.len (log (app start))
  ∧ 0 ≤ messages_since_analysis (app s) ≤ Py.len (log (app s))
  ∧ 0 ≤ messages_since_analysis (app s') ≤ Py.len (log (app s'))
  ∧ messages_since_analysis (app s') = counter_after e s.
Proof.
  intros s s'.
  pose proof (run_counter_inv evs start counter_inv_start) as Hs.
  pose proof (step_counter e _ Hs) as [Hs' Hm].
  split; [done|]. split; [apply Hs|]. split; [apply Hs'|apply Hm].
Qed.

(** C4, as claimed, fails: after a failed dispatch the fourth message takes
    the counter to 4, above the window size of 3. *)
Lemma counter_exceeds_window :
  let s := run failed_first_dispatch start in
  messages_since_analysis (app s) = 4
  ∧ window_size (app s) = 3
  ∧ ¬ counter_bounded (app s).
Proof.
  vm_compute. split; [done|]. split; [done|].
  intros [_ H]. by apply H.
Qed.

(** ** A dispatch that succeeds *)

Lemma run_incoming (msgs : list (string * string)) (s : System) :
  let s' := run (incoming msgs) s in
  log (app s') = log (app s) ++ chats msgs
  ∧ last_analyzed_index (app s') = last_analyzed_index (app s)
  ∧ message_queue (app s') = message_queue (app s)
  ∧ alert_queue (app s') = alert_queue (app s)
  ∧ window_size (app s') = window_size (app s)
  ∧ current_chat (app s') = current_chat (app s)
  ∧ (∀ r, r ≠ current_chat (app s) → heap (app s') !! r = heap (app s) !! r)
  ∧ (∀ i t, threads s !! i = Some t → threads s' !! i = Some t).
Proof.
  revert s. induction msgs as [|[sender message] msgs IH]; intros s.
  - simpl. by rewrite app_nil_r.
  - cbn [incoming map run]. fold (incoming msgs).
    specialize (IH (step (Incoming sender message) s)).
    cbn zeta in IH. destruct IH as (Hlog & Hlai & Hmq & Haq & Hws & Hcur & Hheap & Hth).
    cbn [step fst snd] in *. rewrite handle_message_eq in *.
    cbn [app threads] in *.
    rewrite Hlog, Hlai, Hmq, Haq, Hws, Hcur, log_appended, <- app_assoc.
    repeat (split; [done|]).
    split.
    + intros r Hr. rewrite Hheap by done. simpl. by rewrite lookup_insert_ne.
    + intros i t Ht. apply Hth. by apply lookup_app_l_Some.
Qed.

Lemma sched_window (s : System) (i : nat) (sender : string) (call : AnalyzeCall) :
  threads s !! i = Some (mkThread sender AtWindow) →
  step (Sched i call) s =
    mkSys (snd (get_analysis_window (app s)))
          (<[i := mkThread sender (AtAnalyze (fst (get_analysis_window (app s))))]>
             (threads s)).
Proof.
  intros Ht. cbn [step]. rewrite Ht. unfold analyze_wrapper, bind, ret; simpl.
  by destruct (get_analysis_window (app s)).
Qed.

Lemma sched_analyze (s : System) (i : nat) (sender : string) (w : nat)
    (call : AnalyzeCall) (results : SentimentResponse) :
  threads s !! i = Some (mkThread sender (AtAnalyze w)) →
  call_results call = Some results →
  step (Sched i call) s =
    mkSys (app s) (<[i := mkThread sender (AtPut results)]> (threads s)).
Proof.
  intros Ht Hcall. cbn [step]. rewrite Ht. unfold analyze_wrapper; simpl.
  destruct call as [|running fut]; simpl in Hcall; [done|].
  by rewrite Hcall.
Qed.

Lemma sched_put (s : System) (i : nat) (sender : string)
    (call : AnalyzeCall) (results : SentimentResponse) :
  threads s !! i = Some (mkThread sender (AtPut results)) →
  step (Sched i call) s =
    mkSys (set_message_queue (message_queue (app s) ++ [(sender, Some results)]) (app s))
          (<[i := mkThread sender AtIndex]> (threads s)).
Proof. intros Ht. cbn [step]. by rewrite Ht. Qed.

Lemma sched_index (s : System) (i : nat) (sender : string) (call : AnalyzeCall) :
  threads s !! i = Some (mkThread sender AtIndex) →
  step (Sched i call) s =
    mkSys (set_last_analyzed_index (Py.len (log (app s)) - 1) (app s))
          (<[i := mkThread sender AtCounter]> (threads s)).
Proof. intros Ht. cbn [step]. by rewrite Ht. Qed.

Lemma sched_counter (s : System) (i : nat) (sender : string) (call : AnalyzeCall) :
  threads s !! i = Some (mkThread sender AtCounter) →
  step (Sched i call) s =
    mkSys (set_messages_since_analysis 0 (app s)) (delete i (threads s)).
Proof. intros Ht. cbn [step]. by rewrite Ht. Qed.

Lemma lookup_replaced (ts : list Thread) (i : nat) (t t' : Thread) :
  ts !! i = Some t → <[i := t']> ts !! i = Some t'.
Proof. intros Ht. apply list_lookup_insert_eq. by eapply lookup_lt_Some. Qed.

(** C9, as the code has it: a dispatch that gets a result sets
    [last_analyzed_index] from the length of the log when the result is
    processed, not from its length when the window was taken.  The messages
    that arrived in between are thereby counted as analyzed
    ([last_analyzed_index] covers them and the counter restarts at 0)
    although the window, when it was taken, held messages of the earlier log
    only; a window that was built by slicing never receives them afterwards
    either; and the result is on [message_queue] before either field is
    written. *)
Theorem successful_dispatch_marks_current_length
    (s0 : System) (i : nat) (sender : string) (call : AnalyzeCall)
    (results : SentimentResponse) (msgs : list (string * string)) :
  0 < window_size (app s0) →
  threads s0 !! i = Some (mkThread sender AtWindow) →
  call_results call = Some results →
  let s1 := step (Sched i call) s0 in
  let s2 := run (incoming msgs) s1 in
  let s3 := step (Sched i call) s2 in
  let s4 := step (Sched i call) s3 in
  let s5 := step (Sched i call) s4 in
  let s6 := step (Sched i call) s5 in
  ∃ w,
    threads s1 !! i = Some (mkThread sender (AtAnalyze w))
    ∧ (∃ older, log (app s0) = older ++ deref (heap (app s1)) w)
    ∧ (window_size (app s0) < Py.len (log (app s0)) →
       deref (heap (app s6)) w = deref (heap (app s1)) w)
    ∧ log (app s6) = log (app s0) ++ chats msgs
    ∧ message_queue (app s4) = message_queue (app s3) ++ [(sender, Some results)]
    ∧ last_analyzed_index (app s4) = last_analyzed_index (app s3)
    ∧ messages_since_analysis (app s4) = messages_since_analysis (app s3)
    ∧ message_queue (app s6) = message_queue (app s0) ++ [(sender, Some results)]
    ∧ last_analyzed_index (app s6) = Py.len (log (app s0)) + Py.len msgs - 1
    ∧ messages_since_analysis (app s6) = 0.
Proof.
  intros Hws Ht Hcall s1 s2 s3 s4 s5 s6.
  destruct (window_content (app s0) Hws) as [_ Holder].
  pose proof (window_frame (app s0) Hws) as Hwin. cbn zeta in Hwin.
  destruct Hwin as (Hlog1 & Hcur1 & Hlai1 & _ & Hws1 & Hmq1 & _).
  exists (fst (get_analysis_window (app s0))).
  assert (Hs1 : s1 = mkSys (snd (get_analysis_window (app s0)))
                 (<[i := mkThread sender (AtAnalyze (fst (get_analysis_window (app s0))))]>
                    (threads s0))) by (by apply sched_window).
  assert (Ht1 : threads s1 !! i =
                  Some (mkThread sender (AtAnalyze (fst (get_analysis_window (app s0)))))).
  { rewrite Hs1. by eapply lookup_replaced. }
  pose proof (run_incoming msgs s1) as Hrun. cbn zeta in Hrun. fold s2 in Hrun.
  destruct Hrun as (Hlog2 & Hlai2 & Hmq2 & _ & _ & _ & Hheap2 & Hth2).
  pose proof (Hth2 _ _ Ht1) as Ht2.
  assert (Hs3 : s3 = mkSys (app s2) (<[i := mkThread sender (AtPut results)]> (threads s2)))
    by (by eapply sched_analyze).
  assert (Ht3 : threads s3 !! i = Some (mkThread sender (AtPut results)))
    by (rewrite Hs3; by eapply lookup_replaced).
  assert (Hs4 : s4 = mkSys (set_message_queue
                              (message_queue (app s3) ++ [(sender, Some results)]) (app s3))
                       (<[i := mkThread sender AtIndex]> (threads s3)))
    by (by apply sched_put).
  assert (Ht4 : threads s4 !! i = Some (mkThread sender AtIndex))
    by (rewrite Hs4; by eapply lookup_replaced).
  assert (Hs5 : s5 = mkSys (set_last_analyzed_index (Py.len (log (app s4)) - 1) (app s4))
                       (<[i := mkThread sender AtCounter]> (threads s4)))
    by (by apply sched_index).
  assert (Ht5 : threads s5 !! i = Some (mkThread sender AtCounter))
    by (rewrite Hs5; by eapply lookup_replaced).
  assert (Hs6 : s6 = mkSys (set_messages_since_analysis 0 (app s5)) (delete i (threads s5)))
    by (by apply (sched_counter _ _ sender)).
  assert (Happ1 : app s1 = snd (get_analysis_window (app s0))) by (by rewrite Hs1).
  assert (Hlog4 : log (app s4) = log (app s0) ++ chats msgs).
  { rewrite Hs4, Hs3; unfold log; simpl. fold (log (app s2)).
    by rewrite Hlog2, Happ1, Hlog1. }
  split; [done|].
  split; [by rewrite Happ1|].
  split.
  { intros Hlong.
    assert (Halloc : is_Some (heap (app s0) !! current_chat (app s0))).
    { apply log_nonempty_allocated. lia. }
    pose proof (sliced_window_is_snapshot (app s0) sender sender Halloc Hlong) as [Hne _].
    rewrite Hs6, Hs5, Hs4, Hs3; unfold deref; simpl.
    rewrite Hheap2; [done|]. by rewrite Happ1, Hcur1. }
  split; [by rewrite Hs6, Hs5|].
  split; [by rewrite Hs4|].
  split; [by rewrite Hs4|].
  split; [by rewrite Hs4|].
  split.
  { rewrite Hs6, Hs5, Hs4, Hs3; simpl. by rewrite Hmq2, Happ1, Hmq1. }
  split.
  { rewrite Hs6, Hs5; simpl. rewrite Hlog4, len_app.
    unfold chats, Py.len. rewrite length_map. lia. }
  by rewrite Hs6.
Qed.

(** C9, as claimed, fails at the first trigger: the window is then the log
    object itself, so the fourth message, which arrives while the first three
    are analyzed, is in the list the thread holds, before the result is
    processed and after, and it is counted as analyzed as well. *)
Lemma in_flight_message_in_window :
  threads analyzing !! 0%nat = Some (mkThread "Alice" (AtAnalyze 0))
  ∧ deref (heap (app fourth_in_flight)) 0 =
      [mkChat "Alice" "1"; mkChat "Bob" "2"; mkChat "Alice" "3"; mkChat "Bob" "4"]
  ∧ deref (heap (app fourth_in_flight_done)) 0 =
      [mkChat "Alice" "1"; mkChat "Bob" "2"; mkChat "Alice" "3"; mkChat "Bob" "4"]
  ∧ last_analyzed_index (app fourth_in_flight_done) = 3
  ∧ ¬ in_flight_excluded fourth_in_flight_done 0 [("Bob", "4")].
Proof.
  repeat (split; [by vm_compute|]).
  intros Hexcl. apply (Hexcl (mkChat "Bob" "4")); vm_compute; tauto.
Qed.

(** ** The cadence of triggers *)

Lemma pristine_step (e : Event) (s : System) :
  pristine s →
  window_size (app (step e s)) = window_size (app s)
  ∧ match e with
    | Incoming _ _ =>
        fst (should_analyze (app (step e s)))
          = (Py.len (log (app (step e s))) =? window_size (app s))
        ∧ (fst (should_analyze (app (step e s))) = false → pristine (step e s))
    | _ => pristine (step e s)
    end.
Proof.
  intros (Hth & Hlai & Hm & Hlt).
  destruct e as [sender message|i call| |now].
  - cbn [step]. rewrite handle_message_eq. cbn [app threads].
    rewrite should_analyze_eq. cbn [fst].
    split; [done|].
    assert (Htrig : trigger (appended sender message (app s))
                    = (Py.len (log (appended sender message (app s)))
                         =? window_size (app s))).
    { unfold trigger. rewrite log_appended, len_app; simpl.
      rewrite Hlai, Hm. change (Py.len [_]) with 1.
      destruct (Z.eqb_spec (Py.len (log (app s)) + 1) (window_size (app s)));
        destruct (Z.geb_spec (Py.len (log (app s)) + 1) (window_size (app s)));
        simpl; try done; lia. }
    split; [done|].
    intros Hfalse. rewrite Hfalse. rewrite Htrig in Hfalse.
    unfold pristine; simpl. rewrite Hth. split; [done|]. split; [done|].
    rewrite log_appended, len_app in *. change (Py.len [_]) with 1 in *.
    split; [lia|]. apply Z.eqb_neq in Hfalse. lia.
  - cbn [step]. rewrite Hth. simpl. done.
  - cbn [step app threads]. rewrite reset_chat_eq.
    split; [done|]. unfold pristine, log, deref; simpl.
    rewrite lookup_insert_eq; simpl.
    pose proof (len_nonneg (log (app s))).
    repeat split; try done. lia.
  - cbn [step app threads].
    pose proof (check_analysis_frame now (app s)) as (Hheap & Hc & Hws & Hlai' & Hm').
    cbn zeta in *. split; [done|]. unfold pristine, log; cbn [app threads].
    rewrite Hheap, Hc, Hws, Hlai', Hm'. done.
Qed.

Lemma first_trigger_from (evs : list Event) :
  ∀ (s : System) (n : nat) (L : Z) (b : bool),
    pristine s →
    observations evs s !! n = Some (L, b) →
    no_trigger_before n (observations evs s) = true →
    b = (L =? window_size (app s)).
Proof.
  induction evs as [|e evs IH]; intros s n L b Hs Hn Hbefore; [done|].
  pose proof (pristine_step e s Hs) as [Hws Hstep].
  destruct e as [sender message|i call| |now]; cbn [observations] in *;
    try (rewrite <- Hws; by eapply IH).
  destruct Hstep as [Hans Hnext].
  destruct n as [|n].
  - simpl in Hn. injection Hn as <- <-. done.
  - unfold no_trigger_before in Hbefore. cbn [take forallb snd] in Hbefore.
    apply andb_prop in Hbefore as [Hfalse Hbefore].
    apply negb_true_iff in Hfalse.
    rewrite <- Hws. eapply IH; eauto.
Qed.

Lemma lone_dispatch_completes (st : MessengerChat) (sender : string)
    (r : SentimentResponse) :
  is_Some (heap st !! current_chat st) →
  let s5 := run (repeat (Sched 0 (answered r)) 5) (mkSys st [mkThread sender AtWindow]) in
  threads s5 = []
  ∧ log (app s5) = log st
  ∧ is_Some (heap (app s5) !! current_chat (app s5))
  ∧ window_size (app s5) = window_size st
  ∧ messages_since_analysis (app s5) = 0
  ∧ last_analyzed_index (app s5) = Py.len (log st) - 1
  ∧ message_queue (app s5) = message_queue st ++ [(sender, Some r)].
Proof.
  intros Hcur.
  pose proof (get_analysis_window_frame st Hcur) as Hframe. cbn zeta in Hframe.
  destruct Hframe as (Hlog & Hcur' & _ & _ & _ & Hws & Hmq & _).
  cbn [repeat].
  run_one. rewrite (sched_window _ 0 sender) by done. cbn [app threads].
  change (<[0%nat:=?x]> [?t]) with [x].
  run_one. rewrite (sched_analyze _ 0 sender _ _ r) by done. cbn [app threads].
  change (<[0%nat:=?x]> [?t]) with [x].
  run_one. rewrite (sched_put _ 0 sender _ r) by done. cbn [app threads].
  change (<[0%nat:=?x]> [?t]) with [x].
  run_one. rewrite (sched_index _ 0 sender) by done. cbn [app threads].
  change (<[0%nat:=?x]> [?t]) with [x].
  run_one. rewrite (sched_counter _ 0 sender) by done. cbn [app threads].
  change (delete 0%nat [?t]) with (@nil Thread).
  cbn [run app threads].
  unfold log in *; simpl. rewrite Hws, Hmq.
  unfold log in Hlog. rewrite Hlog. done.
Qed.

Lemma settled_deliver (sender message : string) (r : SentimentResponse) (s : System) :
  settled s →
  let s1 := step (Incoming sender message) s in
  let s' := run (repeat (Sched 0 (answered r)) 5) s1 in
  settled s'
  ∧ window_size (app s') = window_size (app s)
  ∧ Py.len (log (app s')) = Py.len (log (app s)) + 1
  ∧ Py.len (log (app s1)) = Py.len (log (app s)) + 1
  ∧ fst (should_analyze (app s1))
      = ((Py.len (log (app s)) + 1) mod window_size (app s) =? 0).
Proof.
  intros (Hth & Hcur & Hm & Hmod). cbn zeta.
  cbn [step]. rewrite handle_message_eq, Hth. cbn [app threads].
  rewrite should_analyze_eq. cbn [fst].
  set (st1 := appended sender message (app s)).
  assert (Hlen1 : Py.len (log st1) = Py.len (log (app s)) + 1).
  { unfold st1. by rewrite log_appended, len_app. }
  assert (Hcur1 : is_Some (heap st1 !! current_chat st1)).
  { unfold st1; simpl. by rewrite lookup_insert_eq. }
  assert (Hm1 : messages_since_analysis st1 = messages_since_analysis (app s) + 1) by done.
  assert (Hws1 : window_size st1 = window_size (app s)) by done.
  set (ws := window_size (app s)) in *.
  set (len := Py.len (log (app s))) in *.
  set (m := messages_since_analysis (app s)) in *.
  assert (Hdiv : len = ws * (len / ws) + m).
  { rewrite Hmod. apply Z.div_mod. lia. }
  destruct (Z.eq_dec (m + 1) ws) as [Hfull|Hpart].
  - assert (Hzero : (len + 1) mod ws = 0).
    { symmetry. apply (Z.mod_unique_pos _ _ (len / ws + 1)); lia. }
    assert (Htrig : trigger st1 = true).
    { unfold trigger. rewrite Hm1, Hws1.
      destruct (Z.geb_spec (m + 1) ws); [|lia]. apply orb_true_r. }
    rewrite Htrig. cbn [option_list app].
    pose proof (lone_dispatch_completes st1 sender r Hcur1) as Hrun.
    cbn zeta in Hrun. destruct Hrun as (Hth5 & Hlog5 & Hcur5 & Hws5 & Hm5 & _).
    change ([] ++ option_list (Some ?t)) with [t].
    unfold settled. rewrite Hth5, Hlog5, Hws5, Hm5, Hlen1, Hws1, Hzero.
    repeat split; try done; lia.
  - assert (Hrem : (len + 1) mod ws = m + 1).
    { symmetry. apply (Z.mod_unique_pos _ _ (len / ws)); lia. }
    assert (Htrig : trigger st1 = false).
    { unfold trigger. rewrite Hm1, Hws1, Hlen1.
      destruct (Z.geb_spec (m + 1) ws); [lia|].
      destruct (Z.eqb_spec (len + 1) ws) as [Heq|]; [|done].
      rewrite Heq, Z.mod_same in Hrem by lia. lia. }
    rewrite Htrig. cbn [option_list app]. change ([] ++ option_list None) with (@nil Thread).
    cbn [repeat run step threads lookup list_lookup].
    change (([] : list Thread) !! 0%nat) with (@None Thread).
    cbn [app]. unfold settled; cbn [app threads].
    rewrite Hlen1, Hws1, Hm1, Hrem.
    repeat split; try done; try lia.
Qed.

Lemma sync_trace_cons (sender message : string) (r : SentimentResponse)
    (msgs : list (string * string * SentimentResponse)) :
  sync_trace ((sender, message, r) :: msgs) =
    Incoming sender message :: repeat (Sched 0 (answered r)) 5 ++ sync_trace msgs.
Proof. reflexivity. Qed.

Lemma observations_scheds (i : nat) (call : AnalyzeCall) (k : nat)
    (rest : list Event) (s : System) :
  observations (repeat (Sched i call) k ++ rest) s =
    observations rest (run (repeat (Sched i call) k) s).
Proof. revert s. induction k as [|k IH]; intros s; simpl; auto. Qed.

Lemma sync_observations (msgs : list (string * string * SentimentResponse)) :
  ∀ s : System,
    settled s →
    observations (sync_trace msgs) s =
      imap (λ n _, (Py.len (log (app s)) + Z.of_nat (S n),
                    (Py.len (log (app s)) + Z.of_nat (S n)) mod window_size (app s) =? 0))
           msgs.
Proof.
  induction msgs as [|[[sender message] r] msgs IH]; intros s Hs; [done|].
  pose proof (settled_deliver sender message r s Hs) as Hstep.
  cbn zeta in Hstep. destruct Hstep as (Hs' & Hws & Hlen' & Hlen1 & Hans).
  specialize (IH _ Hs').
  rewrite sync_trace_cons. cbn [observations].
  rewrite observations_scheds, IH, Hlen1, Hans, Hlen', Hws.
  rewrite imap_cons. f_equal.
  apply imap_ext. intros n x _. simpl.
  replace (Py.len (log (app s)) + 1 + Z.of_nat (S n))
    with (Py.len (log (app s)) + Z.of_nat (S (S n))) by lia.
  done.
Qed.

Lemma pristine_start : pristine start.
Proof. by vm_compute. Qed.

Lemma settled_start : settled start.
Proof. unfold settled; simpl. repeat split; done. Qed.

(** C2, as the code has it.  Whatever happens, the first true answer of
    [should_analyze] comes exactly when the log has [window_size] entries.
    After that the answers are true once every [window_size] messages
    provided each dispatch gets a result and finishes before the next
    message arrives. *)
Theorem trigger_cadence :
  (∀ (evs : list Event) (n : nat) (L : Z) (b : bool),
     observations evs start !! n = Some (L, b) →
     no_trigger_before n (observations evs start) = true →
     b = (L =? window_size (app start)))
  ∧ (∀ msgs : list (string * string * SentimentResponse),
       observations (sync_trace msgs) start =
         imap (λ n _, (Z.of_nat (S n),
                       Z.of_nat (S n) mod window_size (app start) =? 0)) msgs).
Proof.
  split.
  - intros evs n L b. apply first_trigger_from, pristine_start.
  - intros msgs. by rewrite (sync_observations msgs start settled_start).
Qed.

(** C2, as claimed, fails: when the first dispatch fails, the fourth message
    gets a true answer right after the third. *)
Lemma cadence_broken_by_failure :
  observations failed_first_dispatch start
    = [(1, false); (2, false); (3, true); (4, true)]
  ∧ ¬ cadence (observations failed_first_dispatch start)
              (window_size (app start)).
Proof.
  split; [by vm_compute|].
  intros Hcad. specialize (Hcad 3%nat 4 true eq_refl). done.
Qed.

(** ** The window size never changes *)

Lemma step_window_size (e : Event) (s : System) :
  window_size (app (step e s)) = window_size (app s).
Proof.
  destruct e as [sender message|i call| |now].
  - cbn [step]. by rewrite handle_message_eq.
  - cbn [step]. destruct (threads s !! i) as [t|]; [|done].
    unfold analyze_wrapper.
    destruct (t_stage t) as [|w|results| |]; simpl; try done.
    + unfold get_analysis_window, bind, gets, load, ret, alloc; simpl.
      by destruct (_ <=? _).
    + destruct call as [|running fut]; [done|].
      by destruct (AsyncTkThread_run running fut).
  - cbn [step app]. by rewrite reset_chat_eq.
  - apply check_analysis_frame.
Qed.

(** X18: nothing ever assigns [window_size] after [__init__]: it is 3 in
    every state the application can reach. *)
Lemma window_size_constant (evs : list Event) :
  window_size (app (run evs start)) = 3.
Proof.
  assert (H : ∀ s, window_size (app (run evs s)) = window_size (app s)).
  { induction evs as [|e evs IH]; intros s; simpl; [done|].
    by rewrite IH, step_window_size. }
  by rewrite H.
Qed.

(** ** Worked instances *)

(** The window of a log of four messages. *)
Lemma get_analysis_window_spec_witness :
  0 < window_size four_messages
  ∧ Py.len (deref (heap (snd (get_analysis_window four_messages)))
                  (fst (get_analysis_window four_messages)))
    = Z.min (window_size four_messages) (Py.len (log four_messages)).
Proof.
  split; [reflexivity|].
  apply (get_analysis_window_spec four_messages). reflexivity.
Defined.

(** The alert for the first window, popped while the log has three
    messages. *)
Lemma check_analysis_message_range_witness :
  message_queue result_queued = [("Alice", Some verdict)]
  ∧ ∃ alert,
      alert_queue (snd (check_analysis "12:00:00" result_queued))
        = alert_queue result_queued ++ [alert]
      ∧ message_range alert =
          format_range
            (Z.max 1 (Py.len (log result_queued) - window_size result_queued + 1))
            (Py.len (log result_queued)) (window_size result_queued)
      ∧ child_name alert = "Alice"
      ∧ message_queue (snd (check_analysis "12:00:00" result_queued)) = [].
Proof.
  split; [reflexivity|].
  apply (check_analysis_message_range result_queued "12:00:00" "Alice" verdict []).
  reflexivity.
Defined.

(** The analyzer times out on the first window. *)
Lemma failed_dispatch_changes_nothing_witness :
  call_results (CallRuns true FutureTimeout) = None
  ∧ app (step (Sched 0 (CallRuns true FutureTimeout)) analyzing) = app analyzing.
Proof.
  split; [reflexivity|].
  apply (failed_dispatch_changes_nothing analyzing 0
           (mkThread "Alice" (AtAnalyze 0)) 0 (CallRuns true FutureTimeout));
    reflexivity.
Defined.

(** Four messages are in the log when the first thread takes its window, a
    slice of the last three; a fifth arrives while they are analyzed.  The
    index moves to 4 and the window is still what it was. *)
Lemma successful_dispatch_marks_current_length_witness :
  window_size (app four_in_log) < Py.len (log (app four_in_log))
  ∧ ∃ w,
      threads (step (Sched 0 succeeds) four_in_log) !! 0%nat
        = Some (mkThread "Alice" (AtAnalyze w))
      ∧ deref (heap (app (run (repeat (Sched 0 succeeds) 4)
                            (run (incoming [("Alice", "5")])
                                 (step (Sched 0 succeeds) four_in_log))))) w
        = deref (heap (app (step (Sched 0 succeeds) four_in_log))) w
      ∧ last_analyzed_index
          (app (run (repeat (Sched 0 succeeds) 4)
                  (run (incoming [("Alice", "5")])
                       (step (Sched 0 succeeds) four_in_log))))
        = Py.len (log (app four_in_log)) + Py.len [("Alice", "5")] - 1.
Proof.
  split; [reflexivity|].
  destruct (successful_dispatch_marks_current_length
              four_in_log 0 "Alice" succeeds verdict [("Alice", "5")])
    as (w & Ht & _ & Hsame & _ & _ & _ & _ & _ & Hlai & _); [reflexivity..|].
  exists w. split; [exact Ht|]. split; [|exact Hlai].
  apply Hsame. reflexivity.
Defined.

(** The third message is the first to get a true answer. *)
Lemma trigger_cadence_witness :
  observations [msg1; msg2; msg3] start !! 2%nat = Some (3, true)
  ∧ true = (3 =? window_size (app start)).
Proof.
  split; [reflexivity|].
  apply (proj1 trigger_cadence [msg1; msg2; msg3] 2%nat 3 true); reflexivity.
Defined.

(** * Further properties of the controller *)

(** ** The log over a whole run *)

Lemma step_log (e : Event) (s : System) :
  counter_inv (app s) →
  log (app (step e s)) = log_after [e] (log (app s)).
Proof.
  intros [_ Hcur]. destruct e as [sender message|i call| |now]; cbn [log_after].
  - cbn [step]. rewrite handle_message_eq. apply log_appended.
  - cbn [step]. destruct (threads s !! i) as [t|]; [|done].
    pose proof (analyze_wrapper_frame call t (app s) Hcur) as Hframe.
    destruct (analyze_wrapper call t (app s)) as [[t'|] st']; simpl in *;
      by destruct Hframe as [-> _].
  - cbn [step app]. rewrite reset_chat_eq. unfold log, deref; simpl.
    by rewrite lookup_insert_eq.
  - cbn [step app].
    pose proof (check_analysis_frame now (app s)) as (Hheap & Hc & _).
    unfold log. by rewrite Hheap, Hc.
Qed.

Lemma run_log (evs : list Event) (s : System) :
  counter_inv (app s) →
  log (app (run evs s)) = log_after evs (log (app s)).
Proof.
  revert s. induction evs as [|e evs IH]; intros s Hs; [done|].
  cbn [run]. rewrite IH by (by apply step_counter).
  rewrite step_log by done. by destruct e.
Qed.

(** X1: whatever the threads and the polling loop do, the log holds exactly
    the messages that came in since the last reset, in the order they came
    in. *)
Theorem log_is_messages_since_reset (evs : list Event) :
  log (app (run evs start)) = log_after evs [].
Proof. apply (run_log evs start), counter_inv_start. Qed.

(** ** The index of the last analyzed message *)

Lemma analyze_wrapper_index (call : AnalyzeCall) (t : Thread) (st : MessengerChat) :
  is_Some (heap st !! current_chat st) →
  last_analyzed_index (snd (analyze_wrapper call t st)) =
    match t_stage t with
    | AtIndex => Py.len (log st) - 1
    | _ => last_analyzed_index st
    end.
Proof.
  intros Hcur. unfold analyze_wrapper.
  destruct (t_stage t) as [|w|results| |]; try done.
  - unfold bind, ret.
    pose proof (get_analysis_window_frame st Hcur) as Hframe.
    destruct (get_analysis_window st) as [w st1]; simpl in *.
    by destruct Hframe as (_ & _ & _ & _ & ? & _).
  - destruct call as [|running fut]; [done|].
    by destruct (AsyncTkThread_run running fut).
Qed.

Lemma step_index_lower (e : Event) (s : System) :
  counter_inv (app s) →
  -1 ≤ last_analyzed_index (app s) →
  -1 ≤ last_analyzed_index (app (step e s)).
Proof.
  intros [_ Hcur] Hlai.
  destruct e as [sender message|i call| |now].
  - cbn [step]. by rewrite handle_message_eq.
  - cbn [step]. destruct (threads s !! i) as [t|]; [|done].
    pose proof (analyze_wrapper_index call t (app s) Hcur) as Hidx.
    destruct (analyze_wrapper call t (app s)) as [[t'|] st']; simpl in *;
      rewrite Hidx; pose proof (len_nonneg (log (app s)));
      destruct (t_stage t); lia.
  - cbn [step app]. by rewrite reset_chat_eq.
  - cbn [step app].
    by pose proof (check_analysis_frame now (app s)) as (_ & _ & _ & -> & _).
Qed.

Lemma step_index_upper (e : Event) (s : System) :
  no_reset [e] = true →
  counter_inv (app s) →
  last_analyzed_index (app s) < Py.len (log (app s)) →
  last_analyzed_index (app (step e s)) < Py.len (log (app (step e s))).
Proof.
  intros He Hinv Hlai. pose proof Hinv as [_ Hcur].
  rewrite (step_log e s Hinv).
  destruct e as [sender message|i call| |now]; cbn [log_after]; [| |done|].
  - cbn [step]. rewrite handle_message_eq; simpl.
    rewrite len_app. change (Py.len [_]) with 1. lia.
  - cbn [step]. destruct (threads s !! i) as [t|]; [|done].
    pose proof (analyze_wrapper_index call t (app s) Hcur) as Hidx.
    destruct (analyze_wrapper call t (app s)) as [[t'|] st']; simpl in *;
      rewrite Hidx; destruct (t_stage t); lia.
  - cbn [step app].
    by pose proof (check_analysis_frame now (app s)) as (_ & _ & _ & -> & _).
Qed.

(** X2: [last_analyzed_index] is never below [-1], and as long as the chat
    has not been reset it is below the length of the log: it is [-1] or the
    index of a message that is in the log.  The second part is stated for
    runs without a reset only: the thread computes [len(self.current_chat) - 1]
    before it stores it, and the log it measured may be gone by then. *)
Theorem last_analyzed_index_bounds (evs : list Event) :
  let st := app (run evs start) in
  -1 ≤ last_analyzed_index st
  ∧ (no_reset evs = true → last_analyzed_index st < Py.len (log st)).
Proof.
  cbn zeta. split.
  - assert (H : ∀ s, counter_inv (app s) →
                     -1 ≤ last_analyzed_index (app s) →
                     -1 ≤ last_analyzed_index (app (run evs s))).
    { induction evs as [|e evs IH]; intros s Hinv Hlai; [done|].
      cbn [run]. apply IH; [by apply step_counter|by apply step_index_lower]. }
    apply H; [apply counter_inv_start|done].
  - assert (H : ∀ s, no_reset evs = true →
                     counter_inv (app s) →
                     last_analyzed_index (app s) < Py.len (log (app s)) →
                     last_analyzed_index (app (run evs s))
                       < Py.len (log (app (run evs s)))).
    { induction evs as [|e evs IH]; intros s Hevs Hinv Hlai; [done|].
      unfold no_reset in Hevs. cbn [forallb] in Hevs.
      apply andb_prop in Hevs as [He Hevs].
      cbn [run]. apply IH; [done|by apply step_counter|].
      apply step_index_upper; [|done|done].
      unfold no_reset; cbn [forallb]. by rewrite He. }
    intros Hevs. apply H; [done|apply counter_inv_start|done].
Qed.

(** ** The queue of results *)

Lemma check_analysis_pop (now sender : string) (results : SentimentResponse)
    (rest : list (string * option SentimentResponse)) (st : MessengerChat) :
  message_queue st = (sender, Some results) :: rest →
  let L := Py.len (log st) in
  snd (check_analysis now st) =
    set_alert_queue
      (alert_queue st ++
         [ {| timestamp := now;
              child_name := sender;
              alert_sentiment := sentiment results;
              alert_explanation := explanation results;
              alert_alert_needed := alert_needed results;
              message_range :=
                format_range (Z.max 1 (L - window_size st + 1)) L (window_size st) |} ])
      (set_message_queue rest st).
Proof.
  intros Hq. unfold check_analysis, bind, gets, load, modify; simpl.
  rewrite Hq; simpl. fold (log st).
  assert (Hmax : (if Py.len (log st) <=? window_size st then 1
                  else Py.len (log st) - window_size st + 1)
                 = Z.max 1 (Py.len (log st) - window_size st + 1)).
  { destruct (Z.leb_spec (Py.len (log st)) (window_size st)); lia. }
  by rewrite Hmax.
Qed.

Lemma check_analysis_empty (now : string) (st : MessengerChat) :
  message_queue st = [] → snd (check_analysis now st) = st.
Proof.
  intros Hq. unfold check_analysis, bind, gets; simpl. by rewrite Hq.
Qed.

Lemma step_queue_results (e : Event) (s : System) :
  Forall (λ p, is_Some p.2) (message_queue (app s)) →
  Forall (λ p, is_Some p.2) (message_queue (app (step e s))).
Proof.
  intros Hq. destruct e as [sender message|i call| |now].
  - cbn [step]. by rewrite handle_message_eq.
  - cbn [step]. destruct (threads s !! i) as [t|]; [|done].
    unfold analyze_wrapper.
    destruct (t_stage t) as [|w|results| |]; simpl; try done.
    + unfold get_analysis_window, bind, gets, load, ret, alloc; simpl.
      by destruct (_ <=? _).
    + destruct call as [|running fut]; [done|].
      by destruct (AsyncTkThread_run running fut).
    + apply Forall_app. split; [done|]. by repeat constructor.
  - cbn [step app]. rewrite reset_chat_eq. constructor.
  - cbn [step app].
    destruct (message_queue (app s)) as [|[sender [results|]] rest] eqn:Hmq.
    + by rewrite check_analysis_empty, Hmq.
    + rewrite (check_analysis_pop now sender results rest) by done; simpl.
      by inversion Hq.
    + inversion Hq as [|? ? [? Hnone] ?]. discriminate Hnone.
Qed.

(** X3: every entry on [message_queue] carries a result, in every state the
    application can reach.  So a tick of the polling loop takes the oldest
    entry, if there is one, and always turns it into exactly one alert; on an
    empty queue it changes nothing. *)
Theorem tick_takes_one (evs : list Event) (now : string) :
  let st := app (run evs start) in
  let st' := snd (check_analysis now st) in
  Forall (λ p, is_Some p.2) (message_queue st)
  ∧ message_queue st' = drop 1 (message_queue st)
  ∧ length (alert_queue st') =
      (length (alert_queue st) + length (take 1 (message_queue st)))%nat
  ∧ match message_queue st with [] => st' = st | _ => True end.
Proof.
  cbn zeta.
  assert (Hq : Forall (λ p, is_Some p.2) (message_queue (app (run evs start)))).
  { assert (H : ∀ s, Forall (λ p, is_Some p.2) (message_queue (app s)) →
                     Forall (λ p, is_Some p.2) (message_queue (app (run evs s)))).
    { induction evs as [|e evs IH]; intros s Hs; [done|].
      cbn [run]. by apply IH, step_queue_results. }
    apply H. constructor. }
  split; [done|].
  destruct (message_queue (app (run evs start))) as [|[sender [results|]] rest] eqn:Hmq.
  - rewrite check_analysis_empty by done. rewrite Hmq; simpl.
    repeat split; try done; lia.
  - rewrite (check_analysis_pop now sender results rest) by done; simpl.
    rewrite length_app, drop_0; simpl. repeat split; try done.
  - inversion Hq as [|? ? [? Hnone] ?]. discriminate Hnone.
Qed.

Lemma ticks_app (stamps stamps' : list string) (st : MessengerChat) :
  ticks (stamps ++ stamps') st = ticks stamps' (ticks stamps st).
Proof. unfold ticks. apply foldl_app. Qed.

Lemma ticks_cons (now : string) (stamps : list string) (st : MessengerChat) :
  ticks (now :: stamps) st = ticks stamps (snd (check_analysis now st)).
Proof. reflexivity. Qed.

Lemma ticks_empty (stamps : list string) (st : MessengerChat) :
  message_queue st = [] → ticks stamps st = st.
Proof.
  induction stamps as [|now stamps IH]; intros Hq; [done|].
  rewrite ticks_cons, check_analysis_empty by done. by apply IH.
Qed.

Lemma ticks_drain (entries : list (string * SentimentResponse)) :
  ∀ (stamps : list string) (st : MessengerChat),
    message_queue st = map (λ e, (e.1, Some e.2)) entries →
    length stamps = length entries →
    ∃ new : list MonitoringAlert,
      ticks stamps st = set_alert_queue (alert_queue st ++ new) (set_message_queue [] st)
      ∧ map child_name new = map fst entries
      ∧ map (λ a, mkSentiment (alert_sentiment a) (alert_explanation a)
                               (alert_alert_needed a)) new = map snd entries
      ∧ map timestamp new = stamps
      ∧ Forall (λ a, message_range a =
                       format_range (Z.max 1 (Py.len (log st) - window_size st + 1))
                                    (Py.len (log st)) (window_size st)) new.
Proof.
  induction entries as [|[sender [sen expl need]] entries IH];
    intros stamps st Hq Hlen.
  - destruct stamps; [|done]. exists []. simpl in *.
    rewrite app_nil_r. destruct st; simpl in *. by subst.
  - destruct stamps as [|now stamps]; [done|].
    simpl in Hq, Hlen. injection Hlen as Hlen.
    rewrite ticks_cons.
    rewrite (check_analysis_pop now sender (mkSentiment sen expl need) _ st Hq).
    cbn zeta. cbn [sentiment explanation alert_needed].
    set (alert := mkAlert now sender sen expl need _).
    destruct (IH stamps (set_alert_queue (alert_queue st ++ [alert])
                           (set_message_queue
                              (map (λ e, (e.1, Some e.2)) entries) st)))
      as (new & Hticks & Hnames & Hres & Hstamps & Hranges); [done|done|].
    exists (alert :: new). rewrite Hticks; simpl.
    rewrite <- app_assoc; simpl.
    split; [done|]. rewrite Hnames, Hres, Hstamps.
    repeat (split; [done|]).
    constructor; [done|]. exact Hranges.
Qed.

(** X4: the polling loop delivers in order.  When the queue holds [n]
    results and [n] ticks follow with nothing in between, the queue is empty
    afterwards and the [n] new alerts stand behind the old ones, in the order
    of the results, each with the sender, the verdict and the time of its
    tick, and all with the range of the log as it is now.  Further ticks
    change nothing. *)
Theorem ticks_deliver_in_order
    (entries : list (string * SentimentResponse)) (stamps extra : list string)
    (st : MessengerChat) :
  message_queue st = map (λ e, (e.1, Some e.2)) entries →
  length stamps = length entries →
  ∃ new : list MonitoringAlert,
    ticks (stamps ++ extra) st =
      set_alert_queue (alert_queue st ++ new) (set_message_queue [] st)
    ∧ map child_name new = map fst entries
    ∧ map (λ a, mkSentiment (alert_sentiment a) (alert_explanation a)
                             (alert_alert_needed a)) new = map snd entries
    ∧ map timestamp new = stamps
    ∧ Forall (λ a, message_range a =
                     format_range (Z.max 1 (Py.len (log st) - window_size st + 1))
                                  (Py.len (log st)) (window_size st)) new.
Proof.
  intros Hq Hlen.
  destruct (ticks_drain entries stamps st Hq Hlen) as (new & Hticks & Hrest).
  exists new. split; [|exact Hrest].
  rewrite ticks_app, Hticks. by apply ticks_empty.
Qed.

(** ** The life of a dispatch thread *)

Lemma analyze_wrapper_progress (call : AnalyzeCall) (t : Thread) (st : MessengerChat) :
  match fst (analyze_wrapper call t st) with
  | Some t' =>
      (statements_left (t_stage t') < statements_left (t_stage t))%nat
      ∧ t_sender t' = t_sender t
  | None => True
  end
  ∧ (length (message_queue (snd (analyze_wrapper call t st)))
     ≤ length (message_queue st)
       + (if decide (statements_left (t_stage t) = 3%nat) then 1 else 0))%nat.
Proof.
  unfold analyze_wrapper.
  destruct (t_stage t) as [|w|results| |]; simpl.
  - unfold get_analysis_window, bind, gets, load, ret, alloc; simpl.
    destruct (_ <=? _); simpl; split; try lia; split; (lia || done).
  - destruct call as [|running fut]; simpl; [split; [done|lia]|].
    destruct (AsyncTkThread_run running fut); simpl; split; try lia; try done.
    split; (lia || done).
  - rewrite length_app; simpl. split; [|lia]. split; (lia || done).
  - split; [|lia]. split; (lia || done).
  - split; [done|lia].
Qed.

Lemma thread_run_returns (calls : list AnalyzeCall) :
  ∀ (t : Thread) (st : MessengerChat),
    (statements_left (t_stage t) ≤ length calls)%nat →
    fst (thread_run calls t st) = None
    ∧ (length (message_queue (snd (thread_run calls t st)))
       ≤ length (message_queue st)
         + (if decide (3 ≤ statements_left (t_stage t))%nat then 1 else 0))%nat.
Proof.
  induction calls as [|call calls IH]; intros t st Hfuel.
  - destruct (t_stage t); simpl in Hfuel; lia.
  - cbn [thread_run]. unfold bind.
    pose proof (analyze_wrapper_progress call t st) as [Hnext Hqueue].
    destruct (analyze_wrapper call t st) as [[t'|] st']; simpl in *.
    + destruct Hnext as [Hless _].
      destruct (IH t' st') as [Hnone Hq']; [lia|].
      split; [done|].
      repeat case_decide; lia.
    + unfold ret; simpl. split; [done|]. repeat case_decide; lia.
Qed.

(** X5: a dispatch thread always comes to an end.  Every statement either
    returns or takes the thread to a later statement, so after five turns it
    has returned, whatever the analyzer answered and whatever state it found;
    and in all its life it puts at most one result on [message_queue]. *)
Theorem thread_returns_within_five
    (calls : list AnalyzeCall) (t : Thread) (st : MessengerChat) :
  (5 ≤ length calls)%nat →
  fst (thread_run calls t st) = None
  ∧ (length (message_queue (snd (thread_run calls t st)))
     ≤ length (message_queue st) + 1)%nat.
Proof.
  intros Hfuel.
  destruct (thread_run_returns calls t st) as [Hnone Hq].
  { destruct (t_stage t); simpl; lia. }
  split; [done|]. case_decide; lia.
Qed.

(** ** A backlog starts a thread with every message *)

(** X6: once [messages_since_analysis] has reached [window_size], every
    further message starts a dispatch thread of its own: no thread waits for
    another one and their number is not bounded. *)
Theorem backlog_starts_a_thread_per_message
    (msgs : list (string * string)) (s : System) :
  window_size (app s) ≤ messages_since_analysis (app s) →
  threads (run (incoming msgs) s)
    = threads s ++ map (λ m, mkThread m.1 AtWindow) msgs.
Proof.
  revert s. induction msgs as [|[sender message] msgs IH]; intros s Hm.
  - simpl. by rewrite app_nil_r.
  - cbn [incoming map run fst snd]. fold (incoming msgs).
    assert (Hstep : step (Incoming sender message) s
                    = mkSys (appended sender message (app s))
                            (threads s ++ [mkThread sender AtWindow])).
    { cbn [step]. rewrite handle_message_eq.
      assert (Htrig : trigger (appended sender message (app s)) = true).
      { unfold trigger; simpl.
        destruct (Z.geb_spec (messages_since_analysis (app s) + 1) (window_size (app s)));
          [apply orb_true_r|lia]. }
      by rewrite Htrig. }
    rewrite Hstep, IH by (simpl; lia). simpl.
    by rewrite <- app_assoc.
Qed.

(** ** Only the log is ever changed in place *)

Lemma step_other_objects (e : Event) (s : System) (w : nat) :
  is_Some (heap (app s) !! current_chat (app s)) →
  is_Some (heap (app s) !! w) →
  w ≠ current_chat (app s) →
  heap (app (step e s)) !! w = heap (app s) !! w
  ∧ w ≠ current_chat (app (step e s))
  ∧ is_Some (heap (app (step e s)) !! current_chat (app (step e s))).
Proof.
  intros Hcur Hw Hne.
  pose proof (fresh_ref_unused _ _ Hw) as Hfresh.
  destruct e as [sender message|i call| |now].
  - cbn [step]. rewrite handle_message_eq; simpl.
    rewrite lookup_insert_ne by done. rewrite lookup_insert_eq. done.
  - cbn [step]. destruct (threads s !! i) as [t|]; [|done].
    unfold analyze_wrapper.
    destruct (t_stage t) as [|w'|results| |]; simpl; try done.
    + unfold get_analysis_window, bind, gets, load, ret, alloc; simpl.
      destruct (_ <=? _); simpl; [done|].
      rewrite lookup_insert_ne by done.
      rewrite lookup_insert_ne by (by apply not_eq_sym, fresh_ref_unused).
      done.
    + destruct call as [|running fut]; [done|].
      by destruct (AsyncTkThread_run running fut).
  - cbn [step app]. rewrite reset_chat_eq; simpl.
    rewrite lookup_insert_ne by done. rewrite lookup_insert_eq. done.
  - cbn [step app].
    pose proof (check_analysis_frame now (app s)) as (Hheap & Hc & _).
    by rewrite Hheap, Hc.
Qed.

(** X7: a list object other than the current log is never changed by
    anything that happens later: not by messages, not by a reset, not by any
    thread or tick.  A window that was built by slicing therefore keeps the
    messages it was built with. *)
Theorem other_lists_never_change (evs : list Event) (s : System) (w : nat) :
  is_Some (heap (app s) !! current_chat (app s)) →
  is_Some (heap (app s) !! w) →
  w ≠ current_chat (app s) →
  heap (app (run evs s)) !! w = heap (app s) !! w.
Proof.
  revert s. induction evs as [|e evs IH]; intros s Hcur Hw Hne; [done|].
  destruct (step_other_objects e s w Hcur Hw Hne) as (Hsame & Hne' & Hcur').
  cbn [run]. rewrite IH; [done|done| |done]. by rewrite Hsame.
Qed.

(** * The chat windows *)

Lemma shown_snoc (owner : string) (entries : list (Chat * string))
    (c : Chat) (now : string) :
  Ui.shown owner (entries ++ [(c, now)]) =
    Ui.shown owner entries
      ++ display_lines now (sender c) (message c) (String.eqb (sender c) owner).
Proof. unfold Ui.shown. rewrite flat_map_app. done. Qed.

Lemma zip_snoc (l : list Chat) (stamps : list string) (c : Chat) (now : string) :
  length stamps = length l →
  zip (l ++ [c]) (stamps ++ [now]) = zip l stamps ++ [(c, now)].
Proof. intros Hlen. by rewrite zip_with_app. Qed.

Lemma system_handle_message (now sender message : string) (d : Desktop) :
  system (Ui.handle_message now sender message d)
    = step (Incoming sender message) (system d).
Proof. unfold Ui.handle_message. by destruct (String.eqb sender "Alice"). Qed.

Lemma coherent_desktop : Ui.coherent Ui.desktop.
Proof.
  unfold Ui.coherent. split; [apply counter_inv_start|].
  repeat (split; [done|]). by exists [], [].
Qed.

Lemma coherent_step (e : Ui.UiEvent) (d : Desktop) :
  Ui.coherent d → Ui.coherent (Ui.ui_step e d).
Proof.
  intros (Hinv & Hna & Hnb & Hca & Hcb & Hla & Hlb & sa & sb & Hsa & Hsb & Hda & Hdb).
  destruct e as [p now now' message| |i call|now].
  - cbn [Ui.ui_step]. unfold Ui.send_message.
    destruct (String.eqb message "") eqn:Hempty.
    { simpl. unfold Ui.coherent. repeat (split; [done|]). by exists sa, sb. }
    cbn [snd].
    assert (Hlog : ∀ who, log (app (step (Incoming who message) (system d)))
                          = log (app (system d)) ++ [mkChat who message]).
    { intros who. cbn [step]. rewrite handle_message_eq. apply log_appended. }
    assert (Hinv' : ∀ who, counter_inv (app (step (Incoming who message) (system d)))).
    { intros who. by apply step_counter. }
    destruct p; cbn [window set_window].
    + cbn [display_message update_counter set_message_count set_chat_display name].
      rewrite Hna. unfold Ui.handle_message. cbn [String.eqb Ascii.eqb Bool.eqb andb].
      cbn [system alice_window bob_window].
      unfold Ui.coherent.
      cbn [system alice_window bob_window name message_count message_counter
           chat_display display_message update_counter set_message_count
           set_chat_display].
      rewrite Hlog, len_app. change (Py.len [_]) with 1.
      split; [apply Hinv'|]. rewrite Hca, Hcb.
      repeat (split; [done|]).
      exists (sa ++ [now]), (sb ++ [now']).
      rewrite !length_app, Hsa, Hsb. split; [done|]. split; [done|].
      rewrite !zip_snoc, !shown_snoc, Hda, Hdb by done. done.
    + cbn [display_message update_counter set_message_count set_chat_display name].
      rewrite Hnb. unfold Ui.handle_message. cbn [String.eqb Ascii.eqb Bool.eqb andb].
      cbn [system alice_window bob_window].
      unfold Ui.coherent.
      cbn [system alice_window bob_window name message_count message_counter
           chat_display display_message update_counter set_message_count
           set_chat_display].
      rewrite Hlog, len_app. change (Py.len [_]) with 1.
      split; [apply Hinv'|]. rewrite Hca, Hcb.
      repeat (split; [done|]).
      exists (sa ++ [now']), (sb ++ [now]).
      rewrite !length_app, Hsa, Hsb. split; [done|]. split; [done|].
      rewrite !zip_snoc, !shown_snoc, Hda, Hdb by done. done.
  - cbn [Ui.ui_step]. unfold Ui.reset_chat, Ui.coherent.
    cbn [system alice_window bob_window].
    assert (Hlog : log (app (step Reset (system d))) = []).
    { rewrite step_log by done. done. }
    rewrite Hlog. split; [by apply step_counter|].
    repeat (split; [done|]). by exists [], [].
  - cbn [Ui.ui_step]. unfold Ui.coherent. cbn [system alice_window bob_window].
    rewrite step_log by done. cbn [log_after].
    split; [by apply step_counter|].
    repeat (split; [done|]). by exists sa, sb.
  - cbn [Ui.ui_step]. unfold Ui.coherent. cbn [system alice_window bob_window].
    rewrite step_log by done. cbn [log_after].
    split; [by apply step_counter|].
    repeat (split; [done|]). by exists sa, sb.
Qed.

Lemma coherent_run (evs : list Ui.UiEvent) (d : Desktop) :
  Ui.coherent d → Ui.coherent (Ui.ui_run evs d).
Proof.
  revert d. induction evs as [|e evs IH]; intros d Hd; [done|].
  cbn [Ui.ui_run]. by apply IH, coherent_step.
Qed.

(** X8: the counters of both windows always show the length of the log:
    after any sequence of typed messages, resets, thread steps and ticks,
    [message_count] of either window equals [len(current_chat)] and the label
    reads ["Messages: n"] for that number. *)
Theorem counters_show_log_length (evs : list Ui.UiEvent) :
  let d := Ui.ui_run evs Ui.desktop in
  let n := Py.len (log (app (system d))) in
  message_count (alice_window d) = n
  ∧ message_count (bob_window d) = n
  ∧ message_counter (alice_window d) = "Messages: " +:+ pretty n
  ∧ message_counter (bob_window d) = "Messages: " +:+ pretty n.
Proof.
  cbn zeta.
  destruct (coherent_run evs Ui.desktop coherent_desktop)
    as (_ & _ & _ & Hca & Hcb & Hla & Hlb & _).
  rewrite Hla, Hlb, Hca, Hcb. done.
Qed.

(** X9: each window shows exactly the messages of the log, in their order:
    two lines per message, with the name of its sender, tagged [sent] in the
    window of the sender and [received] in the other one.  Only the clock
    readings in the headers are not determined by the log. *)
Theorem windows_show_the_log (evs : list Ui.UiEvent) :
  let d := Ui.ui_run evs Ui.desktop in
  let chat := log (app (system d)) in
  ∃ stamps_a stamps_b : list string,
    length stamps_a = length chat
    ∧ length stamps_b = length chat
    ∧ chat_display (alice_window d) = Ui.shown "Alice" (zip chat stamps_a)
    ∧ chat_display (bob_window d) = Ui.shown "Bob" (zip chat stamps_b).
Proof.
  cbn zeta.
  destruct (coherent_run evs Ui.desktop coherent_desktop)
    as (_ & _ & _ & _ & _ & _ & _ & Hshown).
  exact Hshown.
Qed.

(** X10: [send_message] refuses an empty text: it answers [False] and
    nothing at all changes.  Any other text is answered with [True] and is
    appended to the log under the name of the window it was typed in. *)
Theorem send_message_spec (p : Side) (now now' message : string) (d : Desktop) :
  let result := Ui.send_message p now now' message d in
  fst result = negb (String.eqb message "")
  ∧ if String.eqb message "" then snd result = d
    else log (app (system (snd result)))
           = log (app (system d)) ++ [mkChat (name (window p d)) message].
Proof.
  cbn zeta. unfold Ui.send_message.
  destruct (String.eqb message ""); [done|].
  split; [done|]. cbn [snd].
  rewrite system_handle_message. cbn [step].
  rewrite handle_message_eq. cbn [app]. rewrite log_appended.
  by destruct p.
Qed.

(** * Shutdown *)

(** X11: [stop_application] stops once.  Called while the application runs,
    it clears both flags and exits with status 0; called again, it returns
    at once and changes nothing. *)
Theorem stop_application_once (l : Lifecycle) :
  let first := stop_application l in
  let second := stop_application (snd first) in
  running (snd first) = false
  ∧ fst second = Returned
  ∧ snd second = snd first
  ∧ if running l
    then fst first = Exited 0 ∧ handler_running (snd first) = false
    else fst first = Returned ∧ snd first = l.
Proof. destruct l as [[|] h]; cbn; done. Qed.

(** X12: after [stop_application] no dispatch delivers: whatever the
    analyzer would answer, [AsyncTkThread.run] returns [None], so a thread
    that was waiting for the analyzer ends and leaves the controller as it
    was. *)
Theorem no_delivery_after_stop
    (l : Lifecycle) (s : System) (i : nat) (t : Thread) (w : nat)
    (fut : FutureOutcome) :
  running l = true →
  threads s !! i = Some t →
  t_stage t = AtAnalyze w →
  let l' := snd (stop_application l) in
  call_results (analyzer_call l' fut) = None
  ∧ step (Sched i (analyzer_call l' fut)) s = mkSys (app s) (delete i (threads s)).
Proof.
  intros Hrun Ht Hstage. cbn zeta.
  unfold stop_application. rewrite Hrun. cbn.
  split; [done|].
  rewrite Ht. unfold analyze_wrapper. rewrite Hstage. done.
Qed.

(** * The placement of the windows *)

(** X13: on a screen at least 400 pixels wide the two chat windows lie side
    by side at the same height: Alice's starts on the screen, Bob's starts
    where Alice's ends or further right, and Bob's ends on the screen. *)
Theorem chat_windows_side_by_side
    (monitor_width monitor_height screen_width screen_height : Z) :
  400 ≤ screen_width →
  let alice := (position_windows monitor_width monitor_height
                                 screen_width screen_height).1.1 in
  let bob := (position_windows monitor_width monitor_height
                               screen_width screen_height).1.2 in
  p_y alice = p_y bob
  ∧ 0 ≤ p_x alice
  ∧ p_x alice + p_width alice ≤ p_x bob
  ∧ p_x bob + p_width bob ≤ screen_width.
Proof.
  intros Hwide. cbn. unfold MessengerStyle.WINDOW_WIDTH.
  change (200 / 2) with 100.
  split; [done|].
  pose proof (Z.div_mod screen_width 4 ltac:(lia)).
  pose proof (Z.mod_pos_bound screen_width 4 ltac:(lia)).
  pose proof (Z.div_mod (3 * screen_width) 4 ltac:(lia)).
  pose proof (Z.mod_pos_bound (3 * screen_width) 4 ltac:(lia)).
  lia.
Qed.

(** X14: the monitor window is put at the top of the screen and centred:
    the space left of it and the space right of it differ by one pixel at
    most. *)
Theorem monitor_centred
    (monitor_width monitor_height screen_width screen_height : Z) :
  let parent := (position_windows monitor_width monitor_height
                                  screen_width screen_height).2 in
  p_y parent = 0
  ∧ p_width parent = monitor_width
  ∧ 0 ≤ (screen_width - (p_x parent + monitor_width)) - p_x parent ≤ 1.
Proof.
  cbn. split; [done|]. split; [done|].
  pose proof (Z.div_mod (screen_width - monitor_width) 2 ltac:(lia)).
  pose proof (Z.mod_pos_bound (screen_width - monitor_width) 2 ltac:(lia)).
  lia.
Qed.

(** * The trigger over longer runs *)

(** X15: a reset restarts the trigger policy.  When no thread is in flight
    at the reset, the first true answer of [should_analyze] after it comes
    exactly when the new log has [window_size] entries, whatever else
    happens. *)
Theorem reset_restarts_policy
    (s : System) (evs : list Event) (n : nat) (L : Z) (b : bool) :
  threads s = [] →
  0 < window_size (app s) →
  observations evs (step Reset s) !! n = Some (L, b) →
  no_trigger_before n (observations evs (step Reset s)) = true →
  b = (L =? window_size (app s)).
Proof.
  intros Hth Hws Hn Hbefore.
  assert (Hpristine : pristine (step Reset s)).
  { unfold pristine. cbn [step app threads]. rewrite reset_chat_eq.
    unfold log, deref; simpl. rewrite lookup_insert_eq; simpl. done. }
  rewrite (first_trigger_from evs _ n L b Hpristine Hn Hbefore).
  by rewrite step_window_size.
Qed.

(** X16: once an analysis has been recorded ([last_analyzed_index] is not
    [-1]), the answer depends on the counter alone.  In a burst of messages
    with nothing in between, the [k]-th message gets a true answer exactly
    when the counter, which was [m] before the burst, has reached
    [window_size]: [m + k >= window_size].  From then on every message of the
    burst gets a true answer. *)
Theorem burst_answers (msgs : list (string * string)) (s : System) :
  last_analyzed_index (app s) ≠ -1 →
  observations (incoming msgs) s =
    imap (λ k _, (Py.len (log (app s)) + Z.of_nat (S k),
                  messages_since_analysis (app s) + Z.of_nat (S k)
                    >=? window_size (app s))) msgs.
Proof.
  revert s. induction msgs as [|[sender message] msgs IH]; intros s Hlai; [done|].
  cbn [incoming map observations fst snd]. fold (incoming msgs).
  assert (Hstep : app (step (Incoming sender message) s)
                  = appended sender message (app s)).
  { cbn [step]. by rewrite handle_message_eq. }
  rewrite IH by (by rewrite Hstep).
  rewrite should_analyze_eq, Hstep, log_appended, len_app.
  change (Py.len [_]) with 1. cbn [fst].
  rewrite imap_cons. f_equal.
  - f_equal. unfold trigger. rewrite log_appended; simpl.
    destruct (Z.eqb_spec (last_analyzed_index (app s)) (-1)); [done|].
    by rewrite andb_false_r.
  - apply imap_ext. intros k x _; simpl.
    replace (Py.len (log (app s)) + 1 + Z.of_nat (S k))
      with (Py.len (log (app s)) + Z.of_nat (S (S k))) by lia.
    replace (messages_since_analysis (app s) + 1 + Z.of_nat (S k))
      with (messages_since_analysis (app s) + Z.of_nat (S (S k))) by lia.
    done.
Qed.

(** * From a message to its alert *)

Lemma lone_dispatch_eq (st : MessengerChat) (sender : string) (r : SentimentResponse) :
  let st1 := snd (get_analysis_window st) in
  run (repeat (Sched 0 (answered r)) 5) (mkSys st [mkThread sender AtWindow]) =
    mkSys (set_messages_since_analysis 0
             (set_last_analyzed_index (Py.len (log st1) - 1)
                (set_message_queue (message_queue st1 ++ [(sender, Some r)]) st1)))
          [].
Proof.
  cbn zeta. cbn [repeat].
  run_one. rewrite (sched_window _ 0 sender) by done. cbn [app threads].
  change (<[0%nat:=?x]> [?t]) with [x].
  run_one. rewrite (sched_analyze _ 0 sender _ _ r) by done. cbn [app threads].
  change (<[0%nat:=?x]> [?t]) with [x].
  run_one. rewrite (sched_put _ 0 sender _ r) by done. cbn [app threads].
  change (<[0%nat:=?x]> [?t]) with [x].
  run_one. rewrite (sched_index _ 0 sender) by done. cbn [app threads].
  change (<[0%nat:=?x]> [?t]) with [x].
  run_one. rewrite (sched_counter _ 0 sender) by done. cbn [app threads].
  done.
Qed.

(** X17: from a message to its alert.  When a message makes
    [should_analyze] answer true, the analyzer returns a result, and the
    thread and one tick run with nothing in between, then exactly one alert
    is added.  It names the sender of that message, carries the verdict of
    the analyzer unchanged and the range of the last [window_size] messages
    of the log; the log has grown by that message only,
    [last_analyzed_index] is its index and the counter is 0. *)
Theorem triggering_message_becomes_alert
    (st : MessengerChat) (sender message now : string) (r : SentimentResponse) :
  is_Some (heap st !! current_chat st) →
  message_queue st = [] →
  is_Some (fst (handle_message sender message st)) →
  let s' := run (message_to_alert sender message r now) (mkSys st []) in
  let L := Py.len (log st) + 1 in
  threads s' = []
  ∧ log (app s') = log st ++ [mkChat sender message]
  ∧ message_queue (app s') = []
  ∧ alert_queue (app s') =
      alert_queue st ++
        [ {| timestamp := now;
             child_name := sender;
             alert_sentiment := sentiment r;
             alert_explanation := explanation r;
             alert_alert_needed := alert_needed r;
             message_range :=
               format_range (Z.max 1 (L - window_size st + 1)) L (window_size st) |} ]
  ∧ last_analyzed_index (app s') = L - 1
  ∧ messages_since_analysis (app s') = 0.
Proof.
  intros Hcur Hq Htrig. cbn zeta.
  assert (Htrue : trigger (appended sender message st) = true).
  { rewrite handle_message_eq in Htrig. cbn [fst] in Htrig.
    destruct (trigger (appended sender message st)); [done|by destruct Htrig]. }
  unfold message_to_alert. run_one. rewrite run_app.
  cbn [step app threads]. rewrite handle_message_eq, Htrue.
  cbn [app threads]. change ([] ++ option_list (Some ?t)) with [t].
  set (st0 := appended sender message st).
  assert (Hcur0 : is_Some (heap st0 !! current_chat st0)).
  { unfold st0; simpl. by rewrite lookup_insert_eq. }
  rewrite lone_dispatch_eq. cbn zeta.
  pose proof (get_analysis_window_frame st0 Hcur0) as Hframe. cbn zeta in Hframe.
  destruct Hframe as (Hlog & _ & Hc & _ & _ & Hws & Hmq & Haq).
  set (st1 := snd (get_analysis_window st0)) in *.
  assert (Hlog0 : log st0 = log st ++ [mkChat sender message])
    by apply log_appended.
  cbn [run step app threads].
  rewrite (check_analysis_pop now sender r []).
  2:{ simpl. rewrite Hmq. unfold st0; simpl. by rewrite Hq. }
  cbn zeta. unfold log in *; simpl. rewrite Hlog, Hlog0, Hws, Haq.
  rewrite len_app. change (Py.len [_]) with 1.
  done.
Qed.

(** * Worked instances of the further properties *)

(** Two results are queued; three ticks follow. *)
Lemma ticks_deliver_in_order_witness :
  ∃ new : list MonitoringAlert,
    ticks (["12:00:00"; "12:00:01"] ++ ["12:00:02"]) two_results =
      set_alert_queue (alert_queue two_results ++ new)
                      (set_message_queue [] two_results)
    ∧ map child_name new = ["Alice"; "Bob"].
Proof.
  destruct (ticks_deliver_in_order
              [("Alice", verdict); ("Bob", mkSentiment "neutral" "small talk" false)]
              ["12:00:00"; "12:00:01"] ["12:00:02"] two_results)
    as (new & Hticks & Hnames & _); [reflexivity..|].
  exists new. split; [exact Hticks|exact Hnames].
Defined.

(** The thread of the first window, with an analyzer that answers. *)
Lemma thread_returns_within_five_witness :
  fst (thread_run (repeat succeeds 5) (mkThread "Alice" AtWindow) (app triggered)) = None.
Proof.
  apply (thread_returns_within_five (repeat succeeds 5) (mkThread "Alice" AtWindow)
           (app triggered)).
  simpl. lia.
Defined.

(** Two more messages on top of a failed first window. *)
Lemma backlog_starts_a_thread_per_message_witness :
  window_size (app backlog) ≤ messages_since_analysis (app backlog)
  ∧ threads (run (incoming [("Bob", "4"); ("Alice", "5")]) backlog)
    = threads backlog ++ [mkThread "Bob" AtWindow; mkThread "Alice" AtWindow].
Proof.
  split; [by vm_compute|].
  apply (backlog_starts_a_thread_per_message [("Bob", "4"); ("Alice", "5")] backlog).
  by vm_compute.
Defined.

(** The sliced window of the first thread survives a message and a reset. *)
Lemma other_lists_never_change_witness :
  heap (app (run [Incoming "Alice" "5"; Reset] sliced)) !! 1%nat
    = heap (app sliced) !! 1%nat.
Proof.
  apply (other_lists_never_change [Incoming "Alice" "5"; Reset] sliced 1%nat).
  - by eexists.
  - by eexists.
  - by vm_compute.
Defined.

(** The first window is being analyzed when the application is stopped. *)
Lemma no_delivery_after_stop_witness :
  step (Sched 0 (analyzer_call (snd (stop_application (mkLife true true)))
                               (FutureValue (Some verdict)))) analyzing
    = mkSys (app analyzing) (delete 0%nat (threads analyzing)).
Proof.
  apply (no_delivery_after_stop (mkLife true true) analyzing 0
           (mkThread "Alice" (AtAnalyze 0)) 0 (FutureValue (Some verdict)));
    reflexivity.
Defined.

(** A screen of 1920 by 1080 pixels. *)
Lemma chat_windows_side_by_side_witness :
  p_x (position_windows 600 400 1920 1080).1.1
    + p_width (position_windows 600 400 1920 1080).1.1
  ≤ p_x (position_windows 600 400 1920 1080).1.2.
Proof.
  apply (chat_windows_side_by_side 600 400 1920 1080). lia.
Defined.

(** After one analyzed window and a reset, the third message triggers. *)
Lemma reset_restarts_policy_witness :
  observations [msg1; msg2; msg3] (step Reset analyzed_once) !! 2%nat = Some (3, true)
  ∧ true = (3 =? window_size (app analyzed_once)).
Proof.
  split; [reflexivity|].
  apply (reset_restarts_policy analyzed_once [msg1; msg2; msg3] 2%nat 3 true);
    reflexivity.
Defined.

(** Three more messages after one analyzed window. *)
Lemma burst_answers_witness :
  observations (incoming [("Bob", "4"); ("Alice", "5"); ("Bob", "6")]) analyzed_once
    = [(4, false); (5, false); (6, true)].
Proof.
  rewrite (burst_answers [("Bob", "4"); ("Alice", "5"); ("Bob", "6")] analyzed_once).
  - reflexivity.
  - by vm_compute.
Defined.

(** The third message of a fresh chat. *)
Lemma triggering_message_becomes_alert_witness :
  map child_name
      (alert_queue
         (app (run (message_to_alert "Alice" "3" verdict "12:00:00")
                   (mkSys (app (run [msg1; msg2] start)) []))))
    = ["Alice"].
Proof.
  destruct (triggering_message_becomes_alert
              (app (run [msg1; msg2] start)) "Alice" "3" "12:00:00" verdict)
    as (_ & _ & _ & Haq & _).
  - by eexists.
  - reflexivity.
  - by eexists.
  - rewrite Haq. reflexivity.
Defined.

(** After the first window the index is 2 and the log has three messages. *)
Lemma last_analyzed_index_bounds_witness :
  no_reset first_window_done = true
  ∧ last_analyzed_index (app (run first_window_done start))
    < Py.len (log (app (run first_window_done start))).
Proof.
  split; [reflexivity|].
  apply (proj2 (last_analyzed_index_bounds first_window_done)). reflexivity.
Defined.
